(** * Forensic Seal Pro: the evidence certification pipeline

    A shallow embedding of [src/metadataService.ts] (the metadata extractor),
    of the classification done by the metadata viewer
    ([SENSITIVE_KEYS] and the two filters of [MetadataViewer]) and of the
    workflow handlers of [src/App.tsx], followed by the properties of the
    specification that are settled on them. *)

From Stdlib Require Import List String Ascii ZArith NArith Lia Bool.
From Stdlib Require Import Permutation DecimalString.
From Stdlib.Strings Require Import Byte.
Import ListNotations.
Local Open Scope string_scope.
Local Open Scope Z_scope.

Set Implicit Arguments.

(* ================================================================== *)
(** ** JavaScript host values used by the sources *)
(* ================================================================== *)

Module Js.

(** Truthiness of a [string | undefined] value: [undefined] and the empty
    string are falsy, every other string is truthy. *)
Definition truthy (v : option string) : bool :=
  match v with
  | Some (String _ _) => true
  | _ => false
  end.

(** [a || b] on strings: the left operand when it is truthy. *)
Definition or_else (v : option string) (dflt : string) : string :=
  match v with
  | Some (String c r) => String c r
  | _ => dflt
  end.

(** [Number.prototype.toString] on an integer below 1e21. *)
Definition num_to_string (z : Z) : string :=
  NilZero.string_of_int (Z.to_int z).

Definition nat_digits (n : Z) : string :=
  NilZero.string_of_uint (N.to_uint (Z.to_N n)).

(** Two decimal digits, zero padded. *)
Definition pad2 (n : Z) : string :=
  if n <? 10 then "0" ++ nat_digits n else nat_digits n.

Definition pad4 (n : Z) : string :=
  if n <? 10 then "000" ++ nat_digits n
  else if n <? 100 then "00" ++ nat_digits n
  else if n <? 1000 then "0" ++ nat_digits n
  else nat_digits n.

(** [(num / den).toFixed(2)] for a non-negative integer [num] and a power
    of two [den]: the quotient is exact in binary floating point, and
    [toFixed] picks the integer [n] with [n / 100] closest to it, the
    larger one on a tie. *)
Definition toFixed2 (num den : Z) : string :=
  let n := (200 * num + den) / (2 * den) in
  nat_digits (n / 100) ++ "." ++ pad2 (n mod 100).

(** [String.prototype.startsWith]. *)
Definition startsWith (s p : string) : bool := String.prefix p s.

(** [String.prototype.includes]. *)
Fixpoint includes (s needle : string) : bool :=
  String.prefix needle s ||
  match s with
  | EmptyString => false
  | String _ r => includes r needle
  end.

(** [String.prototype.substring(0, n)]. *)
Definition substring0 (n : nat) (s : string) : string := String.substring 0 n s.

(** *** Dates

    A [Date] is its time value, milliseconds since the epoch; a value out
    of the range of [TimeClip] is an invalid date. *)

Definition ms_per_day : Z := 86400000.

Definition valid_time (t : Z) : bool := Z.abs t <=? 8640000000000000.

Definition week_day (days : Z) : string :=
  match (days + 4) mod 7 with
  | 0 => "Sun" | 1 => "Mon" | 2 => "Tue" | 3 => "Wed"
  | 4 => "Thu" | 5 => "Fri" | _ => "Sat"
  end.

Definition month_name (m : Z) : string :=
  match m with
  | 1 => "Jan" | 2 => "Feb" | 3 => "Mar" | 4 => "Apr"
  | 5 => "May" | 6 => "Jun" | 7 => "Jul" | 8 => "Aug"
  | 9 => "Sep" | 10 => "Oct" | 11 => "Nov" | _ => "Dec"
  end.

(** Year, month and day of the month of a day number (days since
    1970-01-01) in the proleptic Gregorian calendar. *)
Definition civil (days : Z) : Z * Z * Z :=
  let z := days + 719468 in
  let era := z / 146097 in
  let doe := z - era * 146097 in
  let yoe := (doe - doe / 1460 + doe / 36524 - doe / 146096) / 365 in
  let doy := doe - (365 * yoe + yoe / 4 - yoe / 100) in
  let mp := (5 * doy + 2) / 153 in
  let d := doy - (153 * mp + 2) / 5 + 1 in
  let m := if mp <? 10 then mp + 3 else mp - 9 in
  let y := yoe + era * 400 + (if m <=? 2 then 1 else 0) in
  (y, m, d).

(** [Date.prototype.toUTCString]. *)
Definition toUTCString (t : Z) : string :=
  if valid_time t then
    let days := t / ms_per_day in
    let secs := (t mod ms_per_day) / 1000 in
    let '(y, m, d) := civil days in
    week_day days ++ ", " ++ pad2 d ++ " " ++ month_name m ++ " "
      ++ (if y <? 0 then "-" else EmptyString) ++ pad4 (Z.abs y) ++ " "
      ++ pad2 (secs / 3600) ++ ":" ++ pad2 ((secs / 60) mod 60) ++ ":"
      ++ pad2 (secs mod 60) ++ " GMT"
  else "Invalid Date".

End Js.


(** A thrown JavaScript value, with the properties the handlers inspect
    ([error.code], [error.info], [error.message]). *)
Record JsError : Type := mkError {
  err_code : option string;
  err_info : option string;
  err_message : option string
}.

(** How a call completes: it returns a value or throws. *)
Inductive Completion (A : Type) : Type :=
| Normal (a : A)
| Throw (e : JsError).

Arguments Normal {A} a.
Arguments Throw {A} e.

(** A byte buffer ([ArrayBuffer], [Uint8Array]). *)
Definition Buffer : Type := list byte.

(* ================================================================== *)
(** ** State and exceptions

    The sources mutate an object or the component's state and may throw on
    the way; what was written before a throw stays written. *)
(* ================================================================== *)

Definition M (S A : Type) : Type := S -> Completion A * S.

Definition ret {S A} (a : A) : M S A := fun s => (Normal a, s).

Definition bind {S A B} (m : M S A) (k : A -> M S B) : M S B :=
  fun s =>
    match m s with
    | (Normal a, s') => k a s'
    | (Throw e, s') => (Throw e, s')
    end.

Definition throw {S A} (e : JsError) : M S A := fun s => (Throw e, s).

(** The completion of a call that does not touch the state. *)
Definition lift {S A} (c : Completion A) : M S A := fun s => (c, s).

(** [try { body } catch (e) { handler e }]. *)
Definition try_catch {S A} (body : M S A) (handler : JsError -> M S A) : M S A :=
  fun s =>
    match body s with
    | (Normal a, s') => (Normal a, s')
    | (Throw e, s') => handler e s'
    end.

Definition get {S} : M S S := fun s => (Normal s, s).

Definition modify {S} (f : S -> S) : M S unit := fun s => (Normal tt, f s).

Declare Scope js_scope.
Delimit Scope js_scope with js.
Notation "x <- c ;; k" := (bind c (fun x => k))
  (at level 61, c at next level, right associativity) : js_scope.
Notation "c ;; k" := (bind c (fun _ => k))
  (at level 61, right associativity) : js_scope.
Notation "'try' b 'catch' h" := (try_catch b h)
  (at level 60, b at level 61, h at level 0) : js_scope.

(** [if (c) stmt], without an else branch. *)
Definition when {S} (c : bool) (m : M S unit) : M S unit :=
  if c then m else ret tt.

(** [if (v) stmt] on a [string | undefined] value [v]; the statement uses the
    string. *)
Definition if_truthy {S} (v : option string) (k : string -> M S unit) : M S unit :=
  match v with
  | Some (String c r) => k (String c r)
  | _ => ret tt
  end.

(** [if (v) stmt] on an object or [undefined]: an object is always truthy. *)
Definition if_defined {S A} (v : option A) (k : A -> M S unit) : M S unit :=
  match v with
  | Some a => k a
  | None => ret tt
  end.

(* ================================================================== *)
(** ** Objects used as string maps ([Record<string, string>]) *)
(* ================================================================== *)

Module Obj.

(** The own properties in insertion order, as [Object.entries] lists them
    (no key of the sources is an array index). *)
Definition t : Type := list (string * string).

Definition empty : t := [].

Fixpoint get (k : string) (o : t) : option string :=
  match o with
  | [] => None
  | (k', v) :: r => if String.eqb k k' then Some v else get k r
  end.

(** [o[k] = v]: an existing property keeps its place, a new one goes last. *)
Fixpoint set (k v : string) (o : t) : t :=
  match o with
  | [] => [(k, v)]
  | (k', v') :: r => if String.eqb k k' then (k', v) :: r else (k', v') :: set k v r
  end.

Definition entries (o : t) : list (string * string) := o.

Definition keys (o : t) : list string := map fst o.

End Obj.

(* ================================================================== *)
(** ** src/metadataService.ts *)
(* ================================================================== *)

(** The [File] of the browser. *)
Module File.
Record t : Type := mk {
  name : string;
  size : Z;
  type : string;
  lastModified : Z
}.
End File.

(** A document loaded by pdf-lib, as the results of the getters the
    extractor calls; a [Date] is its time value. *)
Module PDFDocument.
Record t : Type := mk {
  getTitle : Completion (option string);
  getAuthor : Completion (option string);
  getSubject : Completion (option string);
  getCreator : Completion (option string);
  getProducer : Completion (option string);
  getCreationDate : Completion (option Z);
  getModificationDate : Completion (option Z);
  getPageCount : Completion Z
}.
End PDFDocument.

(** pdf-lib: [PDFDocument.load(buffer, { ignoreEncryption })]. *)
Definition PdfLoader : Type := Buffer -> bool -> Completion PDFDocument.t.

Section MetadataService.

Local Open Scope js_scope.

Variable PDFDocument_load : PdfLoader.

Definition set_metadata (k v : string) : M Obj.t unit := modify (Obj.set k v).

(** The block of the [try]: the document is loaded and read, then the
    attributes that are there are written. *)
Definition inspectPdf (buffer : Buffer) : M Obj.t unit :=
  pdfDoc <- lift (PDFDocument_load buffer true) ;;
  title <- lift (PDFDocument.getTitle pdfDoc) ;;
  author <- lift (PDFDocument.getAuthor pdfDoc) ;;
  subject <- lift (PDFDocument.getSubject pdfDoc) ;;
  creator <- lift (PDFDocument.getCreator pdfDoc) ;;
  producer <- lift (PDFDocument.getProducer pdfDoc) ;;
  creationDate <- lift (PDFDocument.getCreationDate pdfDoc) ;;
  modDate <- lift (PDFDocument.getModificationDate pdfDoc) ;;
  pageCount <- lift (PDFDocument.getPageCount pdfDoc) ;;
  if_truthy title (fun title => set_metadata "PDF Title" title) ;;
  if_truthy author (fun author => set_metadata "PDF Author" author) ;;
  if_truthy subject (fun subject => set_metadata "PDF Subject" subject) ;;
  if_truthy creator (fun creator => set_metadata "PDF Creator tool" creator) ;;
  if_truthy producer (fun producer => set_metadata "PDF Producer" producer) ;;
  if_defined creationDate
    (fun d => set_metadata "PDF Creation Date" (Js.toUTCString d)) ;;
  if_defined modDate
    (fun d => set_metadata "PDF Mod Date" (Js.toUTCString d)) ;;
  set_metadata "Page Count" (Js.num_to_string pageCount).

(** 1. Standard file system metadata. *)
Definition standardMetadata (file : File.t) : M Obj.t unit :=
  set_metadata "File Name" (File.name file) ;;
  set_metadata "File Size" (Js.toFixed2 (File.size file) 1024 ++ " KB") ;;
  set_metadata "MIME Type"
    (Js.or_else (Some (File.type file)) "application/octet-stream") ;;
  let lastMod := File.lastModified file in
  set_metadata "Last Modified" (Js.toUTCString lastMod) ;;
  set_metadata "Timestamp (Unix)" (Js.num_to_string (File.lastModified file)).

(** The statements of [extractMetadata] on its local [metadata] object. *)
Definition extractMetadata_body (file : File.t) (buffer : Buffer) : M Obj.t unit :=
  standardMetadata file ;;
  when (String.eqb (File.type file) "application/pdf")
    (try inspectPdf buffer
     catch (fun e =>
       set_metadata "PDF Analysis" "Encrypted or Corrupted Structure")) ;;
  when (Js.startsWith (File.type file) "image/")
    (set_metadata "Image Analysis" "Bitmap Data Present").

(** [extractMetadata(file, buffer)]: the body runs on a fresh object, which
    is returned. *)
Definition extractMetadata (file : File.t) (buffer : Buffer) : Completion Obj.t :=
  match extractMetadata_body file buffer Obj.empty with
  | (Normal _, metadata) => Normal metadata
  | (Throw e, _) => Throw e
  end.

End MetadataService.

(* ================================================================== *)
(** ** The metadata viewer: classification *)
(* ================================================================== *)

(** Keys that represent potentially sensitive PII. *)
Definition SENSITIVE_KEYS : list string :=
  [ "PDF Author";
    "PDF Creator tool";
    "PDF Producer";
    "Author";
    "Creator";
    "Producer";
    "Last Modified By" ].

(** [Array.prototype.includes] on strings. *)
Definition array_includes (l : list string) (k : string) : bool :=
  existsb (String.eqb k) l.

Definition sensitiveData (metadata : Obj.t) : list (string * string) :=
  filter (fun e => array_includes SENSITIVE_KEYS (fst e)) (Obj.entries metadata).

Definition generalData (metadata : Obj.t) : list (string * string) :=
  filter (fun e => negb (array_includes SENSITIVE_KEYS (fst e))) (Obj.entries metadata).

(* ================================================================== *)
(** ** src/App.tsx: the data of the component *)
(* ================================================================== *)

(** Modelled from the spec: [types.ts] is not among the sources. The members
    of [AppStep] are the ones [App.tsx] names, in the order of the workflow
    [Idle -> Analyzing -> Review -> Processing -> Certified]. *)
Inductive AppStep : Type := IDLE | ANALYZING | REVIEW | PROCESSING | CERTIFIED.

Definition AppStep_eqb (a b : AppStep) : bool :=
  match a, b with
  | IDLE, IDLE | ANALYZING, ANALYZING | REVIEW, REVIEW
  | PROCESSING, PROCESSING | CERTIFIED, CERTIFIED => true
  | _, _ => false
  end.

(** Modelled from the spec: [ForensicData] of [types.ts], with the
    properties of the object literal built in [processFile]. The spec's
    record may have a digest unset, so each digest is an optional
    property here; [processFile] is what sets them. *)
Record ForensicData : Type := mkForensicData {
  fileName : string;
  fileSize : Z;
  fileType : string;
  lastModified : Z;
  hashSHA256 : option string;
  hashSHA512 : option string;
  timestamp : string;
  originalBuffer : Buffer;
  metadata : Obj.t
}.

(** An [ethers.Signer], by the account it signs for. *)
Inductive Signer : Type := SignerOf (account : string).

Record WalletState : Type := mkWallet {
  address : option string;
  isConnected : bool;
  chainId : option Z
}.

Inductive LogType : Type := Info | Success | Warning | Error.

Record LogEntry : Type := mkLog {
  id : Z;
  text : string;
  type : LogType
}.

Record Web3ErrorDetail : Type := mkDetail {
  title : string;
  description : string;
  solution : option string
}.

Inductive ReportType : Type := JUDICIAL | SETTLEMENT.

(** The caller-supplied fields of the two specialized reports. *)
Definition TradingReportData : Type := Obj.t.

(** The state of [App]: one field per [useState]. *)
Record Session : Type := mkSession {
  step : AppStep;
  fileData : option ForensicData;
  wallet : WalletState;
  walletSigner : option Signer;
  logs : list LogEntry;
  txHash : option string;
  certifiedPdfUrl : option string;
  isBiometricScanning : bool;
  showMetadata : bool;
  showQRModal : bool;
  showReportConfig : bool;
  reportType : ReportType;
  errorDetails : option Web3ErrorDetail;
  isDarkMode : bool
}.

(** The initial values given to [useState]. *)
Definition initial_session : Session :=
  {| step := IDLE;
     fileData := None;
     wallet := {| address := None; isConnected := false; chainId := None |};
     walletSigner := None;
     logs := [];
     txHash := None;
     certifiedPdfUrl := None;
     isBiometricScanning := false;
     showMetadata := false;
     showQRModal := false;
     showReportConfig := false;
     reportType := JUDICIAL;
     errorDetails := None;
     isDarkMode := true |}.

(** The state setters, as functions on the state. *)
Definition with_step (v : AppStep) (s : Session) : Session :=
  mkSession v (fileData s) (wallet s) (walletSigner s) (logs s) (txHash s)
    (certifiedPdfUrl s) (isBiometricScanning s) (showMetadata s) (showQRModal s)
    (showReportConfig s) (reportType s) (errorDetails s) (isDarkMode s).

Definition with_fileData (v : option ForensicData) (s : Session) : Session :=
  mkSession (step s) v (wallet s) (walletSigner s) (logs s) (txHash s)
    (certifiedPdfUrl s) (isBiometricScanning s) (showMetadata s) (showQRModal s)
    (showReportConfig s) (reportType s) (errorDetails s) (isDarkMode s).

Definition with_wallet (v : WalletState) (s : Session) : Session :=
  mkSession (step s) (fileData s) v (walletSigner s) (logs s) (txHash s)
    (certifiedPdfUrl s) (isBiometricScanning s) (showMetadata s) (showQRModal s)
    (showReportConfig s) (reportType s) (errorDetails s) (isDarkMode s).

Definition with_walletSigner (v : option Signer) (s : Session) : Session :=
  mkSession (step s) (fileData s) (wallet s) v (logs s) (txHash s)
    (certifiedPdfUrl s) (isBiometricScanning s) (showMetadata s) (showQRModal s)
    (showReportConfig s) (reportType s) (errorDetails s) (isDarkMode s).

Definition with_logs (f : list LogEntry -> list LogEntry) (s : Session) : Session :=
  mkSession (step s) (fileData s) (wallet s) (walletSigner s) (f (logs s)) (txHash s)
    (certifiedPdfUrl s) (isBiometricScanning s) (showMetadata s) (showQRModal s)
    (showReportConfig s) (reportType s) (errorDetails s) (isDarkMode s).

Definition with_txHash (v : option string) (s : Session) : Session :=
  mkSession (step s) (fileData s) (wallet s) (walletSigner s) (logs s) v
    (certifiedPdfUrl s) (isBiometricScanning s) (showMetadata s) (showQRModal s)
    (showReportConfig s) (reportType s) (errorDetails s) (isDarkMode s).

Definition with_certifiedPdfUrl (v : option string) (s : Session) : Session :=
  mkSession (step s) (fileData s) (wallet s) (walletSigner s) (logs s) (txHash s)
    v (isBiometricScanning s) (showMetadata s) (showQRModal s)
    (showReportConfig s) (reportType s) (errorDetails s) (isDarkMode s).

Definition with_isBiometricScanning (v : bool) (s : Session) : Session :=
  mkSession (step s) (fileData s) (wallet s) (walletSigner s) (logs s) (txHash s)
    (certifiedPdfUrl s) v (showMetadata s) (showQRModal s)
    (showReportConfig s) (reportType s) (errorDetails s) (isDarkMode s).

Definition with_showMetadata (v : bool) (s : Session) : Session :=
  mkSession (step s) (fileData s) (wallet s) (walletSigner s) (logs s) (txHash s)
    (certifiedPdfUrl s) (isBiometricScanning s) v (showQRModal s)
    (showReportConfig s) (reportType s) (errorDetails s) (isDarkMode s).

Definition with_showQRModal (v : bool) (s : Session) : Session :=
  mkSession (step s) (fileData s) (wallet s) (walletSigner s) (logs s) (txHash s)
    (certifiedPdfUrl s) (isBiometricScanning s) (showMetadata s) v
    (showReportConfig s) (reportType s) (errorDetails s) (isDarkMode s).

Definition with_showReportConfig (v : bool) (s : Session) : Session :=
  mkSession (step s) (fileData s) (wallet s) (walletSigner s) (logs s) (txHash s)
    (certifiedPdfUrl s) (isBiometricScanning s) (showMetadata s) (showQRModal s)
    v (reportType s) (errorDetails s) (isDarkMode s).

Definition with_reportType (v : ReportType) (s : Session) : Session :=
  mkSession (step s) (fileData s) (wallet s) (walletSigner s) (logs s) (txHash s)
    (certifiedPdfUrl s) (isBiometricScanning s) (showMetadata s) (showQRModal s)
    (showReportConfig s) v (errorDetails s) (isDarkMode s).

Definition with_errorDetails (v : option Web3ErrorDetail) (s : Session) : Session :=
  mkSession (step s) (fileData s) (wallet s) (walletSigner s) (logs s) (txHash s)
    (certifiedPdfUrl s) (isBiometricScanning s) (showMetadata s) (showQRModal s)
    (showReportConfig s) (reportType s) v (isDarkMode s).

Definition with_isDarkMode (v : bool) (s : Session) : Session :=
  mkSession (step s) (fileData s) (wallet s) (walletSigner s) (logs s) (txHash s)
    (certifiedPdfUrl s) (isBiometricScanning s) (showMetadata s) (showQRModal s)
    (showReportConfig s) (reportType s) (errorDetails s) v.

(** ** The environment of the component *)

Record Blob : Type := mkBlob {
  blob_parts : Buffer;
  blob_type : string
}.

Inductive ReportKind : Type := AuditReport | WhitePaper | JudicialReport | SettlementReport.

(** A call that leaves the component: to a service module, to pdf-lib
    through the extractor, or to the document. *)
Inductive Call : Type :=
| CalculateHashes (file : File.t)
| ExtractMetadata (file : File.t)
| StampPdf (data : ForensicData) (signerAddress : option string)
| CreateObjectURL (blob : Blob)
| ConnectWallet
| MintEvidenceNFT (hash : option string) (signer : Signer)
| GenerateReport (kind : ReportKind) (data : ForensicData)
| ClickDownloadLink (href download : string).

(** What the handlers run in: the state of the component, every state it
    went through before (newest first: each call of a setter is a state a
    render may show), the clock, the object URLs handed out, and the calls
    made so far (newest first).

    The history holds more than React renders: setter calls that follow one
    another without an [await] between them are batched into one render. It
    bounds what is shown from above, and is used for what holds of every
    state in it. The clock counts the delays of the timers only, a call to a
    collaborator adds nothing to it: a time of the model bounds the time of
    a run from below. *)
Record World : Type := mkWorld {
  sess : Session;
  history : list Session;
  now : Z;
  blobs : list (string * Blob);
  calls : list Call
}.

Definition initial_world (t0 : Z) : World :=
  {| sess := initial_session; history := []; now := t0; blobs := []; calls := [] |}.

(** Every state a reader of the component may have seen. *)
Definition visible (w : World) : list Session := sess w :: history w.

(** The state the handler closes over: the one of the render it belongs to. *)
Definition render : M World Session := fun w => (Normal (sess w), w).

(** A setter call. *)
Definition update (f : Session -> Session) : M World unit :=
  fun w => (Normal tt, mkWorld (f (sess w)) (sess w :: history w) (now w) (blobs w) (calls w)).

(** [await new Promise(r => setTimeout(r, ms))]. *)
Definition sleep (ms : Z) : M World unit :=
  fun w => (Normal tt, mkWorld (sess w) (history w) (now w + ms) (blobs w) (calls w)).

(** [Date.now()]. *)
Definition Date_now : M World Z := fun w => (Normal (now w), w).

(** A call to a collaborator, with the way it completed. *)
Definition external {A} (c : Call) (r : Completion A) : M World A :=
  fun w => (r, mkWorld (sess w) (history w) (now w) (blobs w) (c :: calls w)).

Definition object_url (n : nat) : string := "blob:" ++ Js.nat_digits (Z.of_nat n).

(** [URL.createObjectURL(blob)]: a fresh URL that resolves to the blob. *)
Definition createObjectURL (blob : Blob) : M World string :=
  fun w =>
    let url := object_url (List.length (blobs w)) in
    (Normal url,
     mkWorld (sess w) (history w) (now w) ((url, blob) :: blobs w)
       (CreateObjectURL blob :: calls w)).

(** The blob an object URL resolves to. *)
Fixpoint resolve_url (url : string) (l : list (string * Blob)) : option Blob :=
  match l with
  | [] => None
  | (u, b) :: r => if String.eqb url u then Some b else resolve_url url r
  end.

Record HashResult : Type := mkHashResult {
  sha256 : string;
  sha512 : string;
  arrayBuffer : Buffer
}.

Record WalletConnection : Type := mkConnection {
  conn_address : string;
  conn_chainId : Z;
  conn_signer : Signer
}.

(** The service modules imported by [App.tsx] that are not among the
    sources, and pdf-lib: each is given by the way its calls complete. *)
Record Services : Type := mkServices {
  calculateHashes : File.t -> Completion HashResult;
  PDFDocument_load : PdfLoader;
  stampPdf : ForensicData -> option string -> Completion Buffer;
  connectWallet : Completion WalletConnection;
  mintEvidenceNFT : option string -> Signer -> Completion string;
  resolveWeb3Error : JsError -> Web3ErrorDetail;
  generateAuditReport : ForensicData -> option string -> Completion Buffer;
  generateWhitePaper : string -> option string -> Completion Buffer;
  generateJudicialReport : ForensicData -> string -> TradingReportData -> Completion Buffer;
  generateSettlementReport : ForensicData -> string -> TradingReportData -> Completion Buffer
}.

Definition dquote : string := String (ascii_of_nat 34) EmptyString.

Definition pdf_mime : string := "application/pdf".

(* ================================================================== *)
(** ** src/App.tsx: the handlers *)
(* ================================================================== *)

Section App.

Local Open Scope js_scope.

Variable svc : Services.

Definition setStep v := update (with_step v).
Definition setFileData v := update (with_fileData v).
Definition setWallet v := update (with_wallet v).
Definition setWalletSigner v := update (with_walletSigner v).
Definition setLogs v := update (with_logs (fun _ => v)).
Definition setTxHash v := update (with_txHash v).
Definition setCertifiedPdfUrl v := update (with_certifiedPdfUrl v).
Definition setIsBiometricScanning v := update (with_isBiometricScanning v).
Definition setShowMetadata v := update (with_showMetadata v).
Definition setShowQRModal v := update (with_showQRModal v).
Definition setShowReportConfig v := update (with_showReportConfig v).
Definition setReportType v := update (with_reportType v).
Definition setErrorDetails v := update (with_errorDetails v).
Definition setIsDarkMode v := update (with_isDarkMode v).

Definition toggleTheme : M World unit := setIsDarkMode true.

Definition addLog (text : string) (type : LogType) : M World unit :=
  t <- Date_now ;;
  update (with_logs (fun prev => (prev ++ [ {| id := t; text := text; type := type |} ])%list)).

(** The test of [handleError]: the error looks like one of the wallet. *)
Definition looks_like_web3 (error : JsError) : bool :=
  Js.truthy (err_code error) || Js.truthy (err_info error) ||
  (Js.truthy (err_message error) &&
   match err_message error with
   | Some m => Js.includes m "MetaMask" || Js.includes m "wallet"
   | None => false
   end).

Definition handleError (error : JsError) : M World unit :=
  let details :=
    if looks_like_web3 error then resolveWeb3Error svc error
    else {| title := "Operation Failed";
            description :=
              Js.or_else (err_message error) "An unexpected system error occurred.";
            solution := Some "Please check your file and try again." |} in
  setErrorDetails (Some details) ;;
  addLog (title details ++ ": " ++ description details) Error.

Definition handleWalletConnect : M World unit :=
  setErrorDetails None ;;
  try
    (addLog "Initializing Web3 handshake protocol..." Info ;;
     c <- external ConnectWallet (connectWallet svc) ;;
     setWallet {| address := Some (conn_address c); isConnected := true;
                  chainId := Some (conn_chainId c) |} ;;
     setWalletSigner (Some (conn_signer c)) ;;
     addLog ("Wallet Identity Verified: " ++ conn_address c) Success ;;
     addLog ("Network Detected: Chain ID " ++ Js.num_to_string (conn_chainId c)) Info)
  catch (fun error =>
     handleError error ;;
     setWallet {| address := None; isConnected := false; chainId := None |} ;;
     setWalletSigner None).

Definition MAX_SIZE_MB : Z := 50.
Definition MAX_SIZE_BYTES : Z := MAX_SIZE_MB * 1024 * 1024.

Definition capacity_error (file : File.t) : Web3ErrorDetail :=
  {| title := "Storage Capacity Exceeded";
     description :=
       "The file " ++ dquote ++ File.name file ++ dquote ++ " ("
         ++ Js.toFixed2 (File.size file) (1024 * 1024) ++ " MB) exceeds the "
         ++ Js.num_to_string MAX_SIZE_MB ++ "MB safety limit.";
     solution :=
       Some "Please compress the file or split it into smaller evidence packets." |}.

(** [await Promise.all([promise, timer])]: a rejection of the promise
    rejects at once, otherwise both are awaited. *)
Definition all_with_timer {A} (promise : M World A) (ms : Z) : M World A :=
  r <- promise ;; sleep ms ;; ret r.

Definition processFile (file : option File.t) : M World unit :=
  match file with
  | None => ret tt
  | Some file =>
    setErrorDetails None ;;
    if File.size file >? MAX_SIZE_BYTES then
      setErrorDetails (Some (capacity_error file))
    else
      setCertifiedPdfUrl None ;;
      setTxHash None ;;
      setLogs [] ;;
      setStep ANALYZING ;;
      addLog ("Ingesting Evidence: " ++ File.name file ++ " ["
                ++ Js.toFixed2 (File.size file) 1024 ++ " KB]") Info ;;
      addLog "Mounting Virtual File System..." Info ;;
      addLog "Starting Client-Side Cryptographic Hashing..." Warning ;;
      try
        (hashResult <-
           all_with_timer (external (CalculateHashes file) (calculateHashes svc file)) 1500 ;;
         addLog "Extracting File Metadata..." Info ;;
         metadata <-
           external (ExtractMetadata file)
             (extractMetadata (PDFDocument_load svc) file (arrayBuffer hashResult)) ;;
         sleep 500 ;;
         addLog "Running Entropy Analysis (Shannon Algorithm)..." Info ;;
         sleep 500 ;;
         addLog "Scanning for Steganographic Injections..." Info ;;
         t <- Date_now ;;
         let data :=
           {| fileName := File.name file;
              fileSize := File.size file;
              fileType := File.type file;
              lastModified := File.lastModified file;
              hashSHA256 := Some (sha256 hashResult);
              hashSHA512 := Some (sha512 hashResult);
              timestamp := Js.toUTCString t;
              originalBuffer := arrayBuffer hashResult;
              metadata := metadata |} in
         setFileData (Some data) ;;
         addLog ("SHA-256: " ++ Js.substring0 16 (sha256 hashResult) ++ "...") Success ;;
         addLog ("SHA-512: " ++ Js.substring0 16 (sha512 hashResult) ++ "...") Success ;;
         addLog "Integrity Check Passed. No Anomalies Detected." Success ;;
         setStep REVIEW)
      catch (fun error =>
         handleError error ;;
         setStep IDLE)
  end.

(** The bytes of the sealed artifact: the stamping service for a PDF, the
    original buffer otherwise. *)
Definition sealBytes (fileData : ForensicData) (walletAddress : option string)
  : M World Buffer :=
  if String.eqb (fileType fileData) pdf_mime then
    addLog "Injecting Visual Watermarks & Metadata..." Info ;;
    external (StampPdf fileData walletAddress) (stampPdf svc fileData walletAddress)
  else
    addLog "Non-PDF detected. Generating standard forensic wrapper..." Warning ;;
    ret (originalBuffer fileData).

Definition handleCertification : M World unit :=
  s <- render ;;
  match fileData s with
  | None => ret tt
  | Some fileData =>
    setErrorDetails None ;;
    setIsBiometricScanning true ;;
    addLog "Requesting Biometric Authorization..." Warning ;;
    sleep 2500 ;;
    setIsBiometricScanning false ;;
    setStep PROCESSING ;;
    addLog "Identity Confirmed. Access Granted." Success ;;
    addLog "Initializing Digital Stamping Engine..." Info ;;
    try
      (stampedPdfBytes <- sealBytes fileData (address (wallet s)) ;;
       let blob :=
         {| blob_parts := stampedPdfBytes;
            blob_type :=
              if String.eqb (fileType fileData) pdf_mime then pdf_mime
              else fileType fileData |} in
       url <- createObjectURL blob ;;
       setCertifiedPdfUrl (Some url) ;;
       addLog "Digital Seal Applied Successfully." Success ;;
       setStep CERTIFIED)
    catch (fun error =>
       handleError error ;;
       setStep REVIEW)
  end.

Definition auth_required : Web3ErrorDetail :=
  {| title := "Authentication Required";
     description :=
       "A connected Web3 wallet is required to sign the blockchain transaction.";
     solution := Some "Click the 'Connect Wallet' button in the top right corner." |}.

Definition handleMinting : M World unit :=
  s <- render ;;
  setErrorDetails None ;;
  match isConnected (wallet s), walletSigner s with
  | true, Some walletSigner =>
    match fileData s with
    | None => ret tt
    | Some fileData =>
      try
        (addLog "Constructing Blockchain Transaction..." Info ;;
         addLog "Requesting User Signature..." Warning ;;
         result <-
           external (MintEvidenceNFT (hashSHA256 fileData) walletSigner)
             (mintEvidenceNFT svc (hashSHA256 fileData) walletSigner) ;;
         setTxHash (Some result) ;;
         addLog "Transaction Broadcasted to Network." Success ;;
         addLog ("Evidence Immutable ID: " ++ Js.substring0 20 result ++ "...") Success ;;
         addLog "PROOF OF EXISTENCE CONFIRMED." Success)
      catch (fun error => handleError error)
    end
  | _, _ =>
    setErrorDetails (Some auth_required) ;;
    handleWalletConnect
  end.

(** The link that is appended to the document, clicked and removed. *)
Definition download (bytes : Buffer) (filename : string) : M World unit :=
  url <- createObjectURL {| blob_parts := bytes; blob_type := pdf_mime |} ;;
  external (ClickDownloadLink url filename) (Normal tt).

Definition downloadAuditReport : M World unit :=
  s <- render ;;
  match fileData s with
  | None => ret tt
  | Some fileData =>
    addLog "Generating Forensic Audit Report..." Info ;;
    try
      (reportBytes <-
         external (GenerateReport AuditReport fileData)
           (generateAuditReport svc fileData (txHash s)) ;;
       download reportBytes ("AUDIT_REPORT_" ++ fileName fileData ++ ".pdf") ;;
       addLog "Report Downloaded." Success)
    catch (fun error => handleError error)
  end.

Definition downloadWhitePaper : M World unit :=
  s <- render ;;
  match fileData s with
  | None => ret tt
  | Some fileData =>
    addLog "Compiling Technical White Paper..." Info ;;
    try
      (wpBytes <-
         external (GenerateReport WhitePaper fileData)
           (generateWhitePaper svc (fileName fileData) (hashSHA256 fileData)) ;;
       download wpBytes ("WHITE_PAPER_ARCH_" ++ fileName fileData ++ ".pdf") ;;
       addLog "White Paper Generated." Success)
    catch (fun error => handleError error)
  end.

Definition openReportConfig (type : ReportType) : M World unit :=
  setReportType type ;;
  setShowReportConfig true.

Definition reportType_name (t : ReportType) : string :=
  match t with JUDICIAL => "JUDICIAL" | SETTLEMENT => "SETTLEMENT" end.

Definition handleGenerateSpecializedReport (reportData : TradingReportData)
  : M World unit :=
  s <- render ;;
  setShowReportConfig false ;;
  match fileData s with
  | None => ret tt
  | Some fileData =>
    let title :=
      match reportType s with
      | JUDICIAL => "Judicial Peritaje"
      | SETTLEMENT => "Settlement Agreement"
      end in
    addLog ("Generating Specialized Report: " ++ title ++ "...") Info ;;
    try
      (let walletAddr :=
         Js.or_else (address (wallet s)) "0x0000000000000000000000000000000000000000" in
       bytes <-
         match reportType s with
         | JUDICIAL =>
           external (GenerateReport JudicialReport fileData)
             (generateJudicialReport svc fileData walletAddr reportData)
         | SETTLEMENT =>
           external (GenerateReport SettlementReport fileData)
             (generateSettlementReport svc fileData walletAddr reportData)
         end ;;
       download bytes
         (reportType_name (reportType s) ++ "_REPORT_" ++ fileName fileData ++ ".pdf") ;;
       addLog (title ++ " Generated Successfully.") Success)
    catch (fun error => handleError error)
  end.

Definition reset : M World unit :=
  setStep IDLE ;;
  setFileData None ;;
  setLogs [] ;;
  setTxHash None ;;
  setCertifiedPdfUrl None ;;
  setErrorDetails None ;;
  setShowMetadata false ;;
  setShowQRModal false.

End App.

(* ================================================================== *)
(** ** src/App.tsx: what is rendered, and which control runs which handler *)
(* ================================================================== *)

(** The events of the rendered tree. *)
Inductive Event : Type :=
| ConnectClicked
| ThemeToggled
| AlertAcknowledged
| FileDropped (file : option File.t)
| ShowMetadataClicked
| SealClicked
| ViewQRClicked
| MintClicked
| AuditReportClicked
| ReportConfigOpened (type : ReportType)
| WhitePaperClicked
| ResetClicked
| MetadataClosed
| QRClosed
| ReportConfigClosed
| ReportConfigSubmitted (reportData : TradingReportData).

Definition is_some {A} (o : option A) : bool :=
  match o with Some _ => true | None => false end.

(** The sealing button: rendered in the dashboard ([step !== IDLE]) while
    there is no certified URL. *)
Definition seal_button_rendered (s : Session) : bool :=
  negb (AppStep_eqb (step s) IDLE) && negb (Js.truthy (certifiedPdfUrl s)).

(** [disabled={step !== AppStep.REVIEW}]. *)
Definition seal_button_disabled (s : Session) : bool :=
  negb (AppStep_eqb (step s) REVIEW).

Definition mint_button_rendered (s : Session) : bool :=
  negb (AppStep_eqb (step s) IDLE) && negb (Js.truthy (txHash s)).

(** [disabled={step !== AppStep.CERTIFIED || !!txHash}]. *)
Definition mint_button_disabled (s : Session) : bool :=
  negb (AppStep_eqb (step s) CERTIFIED) || Js.truthy (txHash s).

(** The third stage of the dashboard: [{txHash && (...)}]. *)
Definition audit_stage_rendered (s : Session) : bool :=
  negb (AppStep_eqb (step s) IDLE) && Js.truthy (txHash s).

(** An event can happen when its control is rendered and not disabled. *)
Definition enabled (e : Event) (s : Session) : bool :=
  match e with
  | ConnectClicked | ThemeToggled => true
  | AlertAcknowledged => is_some (errorDetails s)
  | FileDropped _ => AppStep_eqb (step s) IDLE
  | ShowMetadataClicked => negb (AppStep_eqb (step s) IDLE)
  | SealClicked => seal_button_rendered s && negb (seal_button_disabled s)
  | ViewQRClicked =>
      negb (AppStep_eqb (step s) IDLE) && Js.truthy (certifiedPdfUrl s)
      || audit_stage_rendered s
  | MintClicked => mint_button_rendered s && negb (mint_button_disabled s)
  | AuditReportClicked | ReportConfigOpened _ | WhitePaperClicked | ResetClicked =>
      audit_stage_rendered s
  | MetadataClosed => showMetadata s && is_some (fileData s)
  | QRClosed => showQRModal s && is_some (fileData s)
  | ReportConfigClosed | ReportConfigSubmitted _ => showReportConfig s
  end.

Section Events.

Variable svc : Services.

(** The handler bound to each event. *)
Definition handler (e : Event) : M World unit :=
  match e with
  | ConnectClicked => handleWalletConnect svc
  | ThemeToggled => toggleTheme
  | AlertAcknowledged => setErrorDetails None
  | FileDropped file =>
      match file with
      | Some f => processFile svc (Some f)
      | None => ret tt
      end
  | ShowMetadataClicked => setShowMetadata true
  | SealClicked => handleCertification svc
  | ViewQRClicked => setShowQRModal true
  | MintClicked => handleMinting svc
  | AuditReportClicked => downloadAuditReport svc
  | ReportConfigOpened type => openReportConfig type
  | WhitePaperClicked => downloadWhitePaper svc
  | ResetClicked => reset
  | MetadataClosed => setShowMetadata false
  | QRClosed => setShowQRModal false
  | ReportConfigClosed => setShowReportConfig false
  | ReportConfigSubmitted reportData => handleGenerateSpecializedReport svc reportData
  end.

(** An event on the rendered tree: nothing runs for a control that is not
    there or is disabled. *)
Definition dispatch (e : Event) : M World unit :=
  fun w => if enabled e (sess w) then handler e w else (Normal tt, w).

End Events.

(** The worlds the handlers can produce, called in any order and with any
    behaviour of the services, each call running to its end before the
    next. *)
Inductive reachable : World -> Prop :=
| reachable_initial (t0 : Z) : reachable (initial_world t0)
| reachable_wait (w : World) (ms : Z) :
    reachable w -> 0 <= ms -> reachable (snd (sleep ms w))
| reachable_handler (w : World) (svc : Services) (e : Event) :
    reachable w -> reachable (snd (handler svc e w)).

(** The worlds the rendered controls can produce. *)
Inductive ui_reachable : World -> Prop :=
| ui_initial (t0 : Z) : ui_reachable (initial_world t0)
| ui_wait (w : World) (ms : Z) :
    ui_reachable w -> 0 <= ms -> ui_reachable (snd (sleep ms w))
| ui_event (w : World) (svc : Services) (e : Event) :
    ui_reachable w -> ui_reachable (snd (dispatch svc e w)).

(** A record has both digests. *)
Definition digests_set (d : ForensicData) : Prop :=
  (exists h, hashSHA256 d = Some h) /\ (exists h, hashSHA512 d = Some h).

(** The record of a state is absent or has both digests. *)
Definition record_whole (s : Session) : Prop :=
  fileData s = None \/ exists d, fileData s = Some d /\ digests_set d.


(** The completion of a handler is a throw. *)
Definition thrown {A} (c : Completion A) : bool :=
  match c with Throw _ => true | Normal _ => false end.

(** The attributes every file gets, whatever its type. *)
Definition system_attributes (file : File.t) : Obj.t :=
  snd (standardMetadata file Obj.empty).

(** The diagnostic attribute of a PDF that could not be read. *)
Definition pdf_diagnostic : string * string :=
  ("PDF Analysis", "Encrypted or Corrupted Structure").

(** The block of the [try] fails: loading the document or one of the
    getters throws. *)
Definition pdf_parse_fails (load : PdfLoader) (buffer : Buffer) : Prop :=
  forall o, thrown (fst (inspectPdf load buffer o)) = true.

(** The keys the deep inspection of a PDF may write. *)
Definition pdf_keys : list string :=
  [ "PDF Title"; "PDF Author"; "PDF Subject"; "PDF Creator tool"; "PDF Producer";
    "PDF Creation Date"; "PDF Mod Date"; "Page Count" ].

(** Concrete inputs for the examples. *)
Definition quiet_error : JsError := mkError None None (Some "boom").

Definition no_pdf : PdfLoader := fun _ _ => Throw quiet_error.

(** The Info dictionary of a PDF file and its number of pages, as the file
    has them: every entry of the dictionary may be missing. *)
Module PdfInfo.
Record t : Type := mk {
  title : option string;
  author : option string;
  subject : option string;
  creator : option string;
  producer : option string;
  creationDate : option Z;
  modDate : option Z;
  pageCount : Z
}.
End PdfInfo.

(** pdf-lib: the name it signs documents with. *)
Definition pdflib_signature : string := "pdf-lib (https://github.com/Hopding/pdf-lib)".

(** pdf-lib: the document that [PDFDocument.load(buffer, { ignoreEncryption: true })]
    returns for a file with the dictionary [info], loaded at [loadTime]. The
    option [updateMetadata] is not given and is [true] by default: the load
    then sets Producer and ModDate, and sets Creator and CreationDate when
    the dictionary has no such entry. The getters read the dictionary after
    these writes. *)
Definition loaded_document (info : PdfInfo.t) (loadTime : Z) : PDFDocument.t :=
  PDFDocument.mk
    (Normal (PdfInfo.title info))
    (Normal (PdfInfo.author info))
    (Normal (PdfInfo.subject info))
    (Normal (Some (match PdfInfo.creator info with
                   | Some c => c
                   | None => pdflib_signature
                   end)))
    (Normal (Some pdflib_signature))
    (Normal (Some (match PdfInfo.creationDate info with
                   | Some d => d
                   | None => loadTime
                   end)))
    (Normal (Some loadTime))
    (Normal (PdfInfo.pageCount info)).

(** A document with a title, an author, an empty Creator and a creation
    date, of three pages. *)
Definition sample_info : PdfInfo.t :=
  PdfInfo.mk (Some "Report") (Some "J. Doe") None (Some EmptyString) None (Some 0) None 3.

(** A document of one page whose dictionary has a title and nothing else. *)
Definition bare_info : PdfInfo.t :=
  PdfInfo.mk (Some "Minutes") None None None None None None 1.

Definition sample_doc : PDFDocument.t := loaded_document sample_info 86400000.

Definition bare_pdf_lib : PdfLoader :=
  fun _ _ => Normal (loaded_document bare_info 86400000).

Definition sample_pdf_lib : PdfLoader := fun _ _ => Normal sample_doc.

Definition notes_txt : File.t := File.mk "notes.txt" 10240 "text/plain" 1730800800000.

Definition scan_pdf : File.t := File.mk "scan.pdf" 2048 "application/pdf" 0.

Definition huge_bin : File.t := File.mk "huge.bin" 52428801 EmptyString 0.

Definition sample_hashes : HashResult :=
  mkHashResult "9f86d081884c7d65" "ee26b0dd4af7e749" [x74; x65; x73; x74].

Definition sample_services : Services :=
  {| calculateHashes := fun _ => Normal sample_hashes;
     PDFDocument_load := sample_pdf_lib;
     stampPdf := fun d _ => Normal (originalBuffer d ++ [x2a])%list;
     connectWallet := Throw quiet_error;
     mintEvidenceNFT := fun _ _ => Normal "0xabc";
     resolveWeb3Error := fun e => mkDetail "Wallet" "declined" None;
     generateAuditReport := fun _ _ => Normal [];
     generateWhitePaper := fun _ _ => Normal [];
     generateJudicialReport := fun _ _ _ => Normal [];
     generateSettlementReport := fun _ _ _ => Normal [] |}.

(** The same services, with a stamping engine that fails. *)
Definition failing_stamp : Services :=
  {| calculateHashes := calculateHashes sample_services;
     PDFDocument_load := no_pdf;
     stampPdf := fun _ _ => Throw quiet_error;
     connectWallet := connectWallet sample_services;
     mintEvidenceNFT := mintEvidenceNFT sample_services;
     resolveWeb3Error := resolveWeb3Error sample_services;
     generateAuditReport := generateAuditReport sample_services;
     generateWhitePaper := generateWhitePaper sample_services;
     generateJudicialReport := generateJudicialReport sample_services;
     generateSettlementReport := generateSettlementReport sample_services |}.

(** The string of a truthy [string | undefined] value. *)
Definition nonempty (v : option string) : option string :=
  match v with
  | Some (String c r) => Some (String c r)
  | _ => None
  end.

(** The object after [if (v) o[k] = v]. *)
Definition set_opt (k : string) (v : option string) (o : Obj.t) : Obj.t :=
  match v with
  | Some x => Obj.set k x o
  | None => o
  end.

(** The object after the writes of the deep inspection. *)
Definition pdf_attributes (title author subject creator producer : option string)
    (creationDate modDate : option Z) (pageCount : Z) (o : Obj.t) : Obj.t :=
  Obj.set "Page Count" (Js.num_to_string pageCount)
    (set_opt "PDF Mod Date" (option_map Js.toUTCString modDate)
       (set_opt "PDF Creation Date" (option_map Js.toUTCString creationDate)
          (set_opt "PDF Producer" (nonempty producer)
             (set_opt "PDF Creator tool" (nonempty creator)
                (set_opt "PDF Subject" (nonempty subject)
                   (set_opt "PDF Author" (nonempty author)
                      (set_opt "PDF Title" (nonempty title) o))))))).

(** Consecutive repetitions removed. *)
Fixpoint compress (l : list AppStep) : list AppStep :=
  match l with
  | [] => []
  | a :: r =>
    match r with
    | [] => [a]
    | b :: _ => if AppStep_eqb a b then compress r else a :: compress r
    end
  end.

(** The steps the component went through, oldest first. *)
Definition step_trace (w : World) : list AppStep :=
  compress (map step (rev (visible w))).

(** Entries were added to the log, one of them of type [Error]. *)
Definition error_logged (before after : Session) : Prop :=
  exists added entry,
    logs after = (logs before ++ added)%list /\ In entry added /\ type entry = Error.


(** The details [handleError] shows for an error that is not one of the
    wallet. *)
Definition operation_failed (e : JsError) : Web3ErrorDetail :=
  {| title := "Operation Failed";
     description := Js.or_else (err_message e) "An unexpected system error occurred.";
     solution := Some "Please check your file and try again." |}.

(** The details [handleError] shows. *)
Definition error_details (svc : Services) (e : JsError) : Web3ErrorDetail :=
  if looks_like_web3 e then resolveWeb3Error svc e else operation_failed e.

(** The record of [notes_txt] analysed at time 0 with [sample_services]. *)
Definition notes_record : ForensicData :=
  {| fileName := "notes.txt";
     fileSize := 10240;
     fileType := "text/plain";
     lastModified := 1730800800000;
     hashSHA256 := Some "9f86d081884c7d65";
     hashSHA512 := Some "ee26b0dd4af7e749";
     timestamp := "Thu, 01 Jan 1970 00:00:02 GMT";
     originalBuffer := [x74; x65; x73; x74];
     metadata :=
       [ ("File Name", "notes.txt"); ("File Size", "10.00 KB");
         ("MIME Type", "text/plain");
         ("Last Modified", "Tue, 05 Nov 2024 10:00:00 GMT");
         ("Timestamp (Unix)", "1730800800000") ] |}.

(** The record of [scan_pdf] analysed at time 0 with [failing_stamp]. *)
Definition scan_record : ForensicData :=
  {| fileName := "scan.pdf";
     fileSize := 2048;
     fileType := "application/pdf";
     lastModified := 0;
     hashSHA256 := Some "9f86d081884c7d65";
     hashSHA512 := Some "ee26b0dd4af7e749";
     timestamp := "Thu, 01 Jan 1970 00:00:02 GMT";
     originalBuffer := [x74; x65; x73; x74];
     metadata :=
       [ ("File Name", "scan.pdf"); ("File Size", "2.00 KB");
         ("MIME Type", "application/pdf");
         ("Last Modified", "Thu, 01 Jan 1970 00:00:00 GMT");
         ("Timestamp (Unix)", "0");
         ("PDF Analysis", "Encrypted or Corrupted Structure") ] |}.

(** A world right after a plain file was analysed, and one after it was
    sealed. *)
Definition reviewed_world : World :=
  snd (handler sample_services (FileDropped (Some notes_txt)) (initial_world 0)).

Definition reviewed_pdf_world : World :=
  snd (handler failing_stamp (FileDropped (Some scan_pdf)) (initial_world 0)).

Definition certified_world : World :=
  snd (handler sample_services SealClicked reviewed_world).

(** A computation relates every world to the one it leaves. *)
Definition keeps (R : World -> World -> Prop) {A} (m : M World A) : Prop :=
  forall w, R w (snd (m w)).

(** The step and the record are the same in two states. *)
Definition same_stage (s s' : Session) : Prop :=
  step s' = step s /\ fileData s' = fileData s.


(** The handlers that write neither the step nor the record. *)
Definition leaves_stage (e : Event) : bool :=
  match e with
  | FileDropped (Some _) | SealClicked | ResetClicked => false
  | _ => true
  end.

(** What may be stored as the record: nothing, or a record with both
    digests. *)
Definition whole_or_absent (v : option ForensicData) : Prop :=
  match v with
  | Some d => digests_set d
  | None => True
  end.

(** A write keeps the record whole; a run keeps it whole in every state
    shown. *)
Definition whole_session_step (s s' : Session) : Prop :=
  record_whole s -> record_whole s'.

Definition whole_world_step (w w' : World) : Prop :=
  (forall s, In s (visible w) -> record_whole s) ->
  (forall s, In s (visible w') -> record_whole s).

(** The step and the record of the current state are the same in two
    worlds. *)
Definition same_stage_world (w w' : World) : Prop :=
  same_stage (sess w) (sess w').

(** The keys the extractor may write after the system attributes. *)
Definition format_keys : list string :=
  (pdf_keys ++ [ "PDF Analysis"; "Image Analysis" ])%list.

(** The attribute of an image file. *)
Definition image_attribute : string * string :=
  ("Image Analysis", "Bitmap Data Present").

(** The sensitive keys the extractor can write. *)
Definition extracted_sensitive_keys : list string :=
  [ "PDF Author"; "PDF Creator tool"; "PDF Producer" ].

(** The metadata viewer: the sensitive section is rendered
    ([sensitiveData.length > 0]). *)
Definition sensitive_section_rendered (metadata : Obj.t) : bool :=
  negb (Nat.eqb (List.length (sensitiveData metadata)) 0).

(** The header of the general table is rendered ([!sensitiveData.length]). *)
Definition table_header_rendered (metadata : Obj.t) : bool :=
  Nat.eqb (List.length (sensitiveData metadata)) 0.

(** The row "No extractable metadata found." is rendered
    ([generalData.length === 0 && sensitiveData.length === 0]). *)
Definition empty_notice_rendered (metadata : Obj.t) : bool :=
  Nat.eqb (List.length (generalData metadata)) 0
  && Nat.eqb (List.length (sensitiveData metadata)) 0.

(** An image file, for the examples. *)
Definition photo_png : File.t := File.mk "photo.png" 4096 "image/png" 0.

(** What the extractor keeps true of its object once the system attributes
    are written: they are its first entries, the keys that follow are format
    keys, and no key is there twice. *)
Definition extractor_shape (file : File.t) (o : Obj.t) : Prop :=
  exists rest,
    o = (system_attributes file ++ rest)%list /\
    (forall k, In k (Obj.keys rest) -> In k format_keys) /\
    NoDup (Obj.keys rest).

(** What the extractor returns for [scan_pdf] read as [sample_doc]. *)
Definition sample_pdf_metadata : Obj.t :=
  [ ("File Name", "scan.pdf"); ("File Size", "2.00 KB");
    ("MIME Type", "application/pdf");
    ("Last Modified", "Thu, 01 Jan 1970 00:00:00 GMT");
    ("Timestamp (Unix)", "0");
    ("PDF Title", "Report"); ("PDF Author", "J. Doe");
    ("PDF Producer", "pdf-lib (https://github.com/Hopding/pdf-lib)");
    ("PDF Creation Date", "Thu, 01 Jan 1970 00:00:00 GMT");
    ("PDF Mod Date", "Fri, 02 Jan 1970 00:00:00 GMT");
    ("Page Count", "3") ].

(** What the extractor returns for [scan_pdf] read by [bare_pdf_lib]. *)
Definition bare_pdf_metadata : Obj.t :=
  [ ("File Name", "scan.pdf"); ("File Size", "2.00 KB");
    ("MIME Type", "application/pdf");
    ("Last Modified", "Thu, 01 Jan 1970 00:00:00 GMT");
    ("Timestamp (Unix)", "0");
    ("PDF Title", "Minutes");
    ("PDF Creator tool", "pdf-lib (https://github.com/Hopding/pdf-lib)");
    ("PDF Producer", "pdf-lib (https://github.com/Hopding/pdf-lib)");
    ("PDF Creation Date", "Fri, 02 Jan 1970 00:00:00 GMT");
    ("PDF Mod Date", "Fri, 02 Jan 1970 00:00:00 GMT");
    ("Page Count", "1") ].

(** A map with each of the seven keys of the taxonomy among others. *)
Definition taxonomy_sample : Obj.t :=
  [ ("File Name", "a.pdf"); ("PDF Author", "J. Doe"); ("PDF Creator tool", "Word");
    ("PDF Producer", "Acrobat"); ("Author", "J. Doe"); ("Creator", "Word");
    ("Producer", "Acrobat"); ("Last Modified By", "R. Roe"); ("Page Count", "3");
    ("author", "J. Doe"); ("PDF Title", "Report") ].
(** A run leaves a part [f] of the state as it was. *)
Definition preserves {A} (f : Session -> A) (w w' : World) : Prop :=
  f (sess w') = f (sess w).

(** The events whose handlers may write the wallet or the signer. *)
Definition writes_wallet (e : Event) : bool :=
  match e with
  | ConnectClicked | MintClicked => true
  | _ => false
  end.

(** The events whose handlers may write the record. *)
Definition writes_record (e : Event) : bool :=
  match e with
  | FileDropped (Some _) | ResetClicked => true
  | _ => false
  end.

(** The wallet and the signer of a state. *)
Definition wallet_of (s : Session) : WalletState * option Signer :=
  (wallet s, walletSigner s).

(** The wallet of a state is connected exactly when it has an address and
    a signer. *)
Definition wallet_consistent (s : Session) : Prop :=
  isConnected (wallet s) = is_some (address (wallet s)) /\
  isConnected (wallet s) = is_some (walletSigner s).
(** Services whose hashing fails. *)
Definition failing_hash : Services :=
  {| calculateHashes := fun _ => Throw quiet_error;
     PDFDocument_load := PDFDocument_load sample_services;
     stampPdf := stampPdf sample_services;
     connectWallet := connectWallet sample_services;
     mintEvidenceNFT := mintEvidenceNFT sample_services;
     resolveWeb3Error := resolveWeb3Error sample_services;
     generateAuditReport := generateAuditReport sample_services;
     generateWhitePaper := generateWhitePaper sample_services;
     generateJudicialReport := generateJudicialReport sample_services;
     generateSettlementReport := generateSettlementReport sample_services |}.

(** The record [processFile] builds from a file, the result of hashing, the
    extracted metadata and the time of the clock. *)
Definition record_of (file : File.t) (hr : HashResult) (m : Obj.t) (t : Z)
  : ForensicData :=
  {| fileName := File.name file;
     fileSize := File.size file;
     fileType := File.type file;
     lastModified := File.lastModified file;
     hashSHA256 := Some (sha256 hr);
     hashSHA512 := Some (sha512 hr);
     timestamp := Js.toUTCString t;
     originalBuffer := arrayBuffer hr;
     metadata := m |}.

(** The generator a report type selects. *)
Definition report_kind (t : ReportType) : ReportKind :=
  match t with
  | JUDICIAL => JudicialReport
  | SETTLEMENT => SettlementReport
  end.

(** The address given to the specialized reports:
    [wallet.address || "0x0000000000000000000000000000000000000000"]. *)
Definition report_address (s : Session) : string :=
  Js.or_else (address (wallet s)) "0x0000000000000000000000000000000000000000".

(** The completion of the generator of a specialized report. *)
Definition specialized_report (svc : Services) (t : ReportType) (d : ForensicData)
    (addr : string) (reportData : TradingReportData) : Completion Buffer :=
  match t with
  | JUDICIAL => generateJudicialReport svc d addr reportData
  | SETTLEMENT => generateSettlementReport svc d addr reportData
  end.

(** A world with a connected wallet and a record, for the examples. *)
Definition connected_services : Services :=
  {| calculateHashes := calculateHashes sample_services;
     PDFDocument_load := PDFDocument_load sample_services;
     stampPdf := stampPdf sample_services;
     connectWallet := Normal (mkConnection "0xfeed" 1 (SignerOf "0xfeed"));
     mintEvidenceNFT := mintEvidenceNFT sample_services;
     resolveWeb3Error := resolveWeb3Error sample_services;
     generateAuditReport := generateAuditReport sample_services;
     generateWhitePaper := generateWhitePaper sample_services;
     generateJudicialReport := generateJudicialReport sample_services;
     generateSettlementReport := generateSettlementReport sample_services |}.

Definition connected_world : World :=
  snd (handler connected_services ConnectClicked certified_world).

Definition anchored_world : World :=
  snd (handler connected_services MintClicked connected_world).

(** The anchored world with the report-configuration modal opened. *)
Definition report_open_world : World :=
  snd (handler connected_services (ReportConfigOpened JUDICIAL) anchored_world).
(** The step with the parts of the state that go with it. *)
Definition stage_of (s : Session)
  : AppStep * option ForensicData * option string * option string :=
  (step s, fileData s, certifiedPdfUrl s, txHash s).

(** The same, without the transaction hash. *)
Definition sealed_stage_of (s : Session)
  : AppStep * option ForensicData * option string :=
  (step s, fileData s, certifiedPdfUrl s).

(** The events whose handlers may write the step, the record, the
    certified URL or the transaction hash. *)
Definition writes_stage (e : Event) : bool :=
  match e with
  | FileDropped (Some _) | SealClicked | ResetClicked | MintClicked => true
  | _ => false
  end.

(** A state between two events: the step is Idle, Review or Certified, and
    the record, the certified URL and the transaction hash are there or not
    as the step has it. *)
Definition at_rest (s : Session) : Prop :=
  match step s with
  | IDLE => fileData s = None /\ certifiedPdfUrl s = None /\ txHash s = None
  | REVIEW =>
      is_some (fileData s) = true /\ certifiedPdfUrl s = None /\ txHash s = None
  | CERTIFIED =>
      is_some (fileData s) = true /\ Js.truthy (certifiedPdfUrl s) = true
  | ANALYZING | PROCESSING => False
  end.

(** The object URLs of a world are those of an earlier one, with more in
    front: none was revoked or replaced. *)
Definition urls_kept (w w' : World) : Prop :=
  exists added, blobs w' = (added ++ blobs w)%list.

(* ================================================================== *)
(** * Properties *)
(* ================================================================== *)

(** ** Host functions *)

Example toUTCString_epoch : Js.toUTCString 0 = "Thu, 01 Jan 1970 00:00:00 GMT".
Proof. reflexivity. Qed.

Example toUTCString_2024 :
  Js.toUTCString 1730800800000 = "Tue, 05 Nov 2024 10:00:00 GMT".
Proof. reflexivity. Qed.

Example toUTCString_leap :
  Js.toUTCString 951782400000 = "Tue, 29 Feb 2000 00:00:00 GMT".
Proof. reflexivity. Qed.

Example toUTCString_before_epoch :
  Js.toUTCString (-1000) = "Wed, 31 Dec 1969 23:59:59 GMT".
Proof. reflexivity. Qed.

Example toFixed2_10k : Js.toFixed2 10240 1024 = "10.00".
Proof. reflexivity. Qed.

Example toFixed2_round : Js.toFixed2 1234 1024 = "1.21".
Proof. reflexivity. Qed.

Lemma append_nonempty_r (a b : string) : b <> EmptyString -> (a ++ b)%string <> EmptyString.
Proof.
  destruct a; simpl; [ auto | discriminate ].
Qed.

Lemma toUTCString_nonempty (t : Z) : Js.toUTCString t <> EmptyString.
Proof.
  unfold Js.toUTCString.
  destruct (Js.valid_time t); [ | discriminate ].
  destruct (Js.civil (t / Js.ms_per_day)) as [[y m] d].
  apply append_nonempty_r. discriminate.
Qed.

Lemma string_of_uint_nonempty (d : Decimal.uint) : NilZero.string_of_uint d <> EmptyString.
Proof.
  destruct d; simpl; discriminate.
Qed.

Lemma num_to_string_nonempty (z : Z) : Js.num_to_string z <> EmptyString.
Proof.
  unfold Js.num_to_string, NilZero.string_of_int.
  destruct (Z.to_int z); [ apply string_of_uint_nonempty | discriminate ].
Qed.

(** ** Objects *)

Lemma get_set_same (k v : string) (o : Obj.t) : Obj.get k (Obj.set k v o) = Some v.
Proof.
  induction o as [ | [k' v'] r IH ]; simpl.
  - now rewrite String.eqb_refl.
  - destruct (String.eqb k k') eqn:E; simpl; rewrite E; auto.
Qed.

Lemma get_set_other (k k' v : string) (o : Obj.t) :
  k <> k' -> Obj.get k (Obj.set k' v o) = Obj.get k o.
Proof.
  intros N. induction o as [ | [k2 v2] r IH ]; simpl.
  - apply String.eqb_neq in N. now rewrite N.
  - destruct (String.eqb k' k2) eqn:E; simpl.
    + apply String.eqb_eq in E. subst k2.
      apply String.eqb_neq in N. now rewrite N.
    + now rewrite IH.
Qed.

Lemma get_set_opt (k k' : string) (v : option string) (o : Obj.t) :
  Obj.get k (set_opt k' v o) =
  if String.eqb k k' then match v with Some x => Some x | None => Obj.get k o end
  else Obj.get k o.
Proof.
  destruct v as [x | ]; simpl.
  - destruct (String.eqb k k') eqn:E.
    + apply String.eqb_eq in E. subst. apply get_set_same.
    + apply String.eqb_neq in E. now apply get_set_other.
  - now destruct (String.eqb k k').
Qed.

Lemma get_set (k k' v : string) (o : Obj.t) :
  Obj.get k (Obj.set k' v o) = if String.eqb k k' then Some v else Obj.get k o.
Proof. exact (get_set_opt k k' (Some v) o). Qed.

Lemma nonempty_spec (v : option string) (x : string) :
  nonempty v = Some x <-> v = Some x /\ x <> EmptyString.
Proof.
  destruct v as [ [ | c r ] | ]; simpl; split.
  - discriminate.
  - intros [E N]. inversion E. subst. now elim N.
  - intros E. inversion E. split; [ reflexivity | discriminate ].
  - now intros [E _].
  - discriminate.
  - now intros [E _].
Qed.

(** ** The metadata extractor *)

Section Extractor.

Variable load : PdfLoader.

Lemma if_truthy_set (k : string) (v : option string) (o : Obj.t) :
  if_truthy v (fun x => set_metadata k x) o = (Normal tt, set_opt k (nonempty v) o).
Proof. now destruct v as [ [ | c r ] | ]. Qed.

Lemma if_defined_set (k : string) (d : option Z) (o : Obj.t) :
  if_defined d (fun t => set_metadata k (Js.toUTCString t)) o
  = (Normal tt, set_opt k (option_map Js.toUTCString d) o).
Proof. now destruct d. Qed.

(** A document that loads and whose getters all return: the attributes that
    are there are written, and nothing throws. *)
Lemma inspectPdf_reads (buffer : Buffer)
    (title author subject creator producer : option string)
    (creationDate modDate : option Z) (pageCount : Z) (o : Obj.t) :
  load buffer true =
    Normal (PDFDocument.mk (Normal title) (Normal author) (Normal subject)
              (Normal creator) (Normal producer) (Normal creationDate)
              (Normal modDate) (Normal pageCount)) ->
  inspectPdf load buffer o =
    (Normal tt,
     pdf_attributes title author subject creator producer creationDate modDate
       pageCount o).
Proof.
  intros L. unfold inspectPdf, bind, lift. rewrite L. cbn [PDFDocument.getTitle
    PDFDocument.getAuthor PDFDocument.getSubject PDFDocument.getCreator
    PDFDocument.getProducer PDFDocument.getCreationDate
    PDFDocument.getModificationDate PDFDocument.getPageCount].
  rewrite !if_truthy_set, !if_defined_set. reflexivity.
Qed.

(** A throw of the block happens while the document is read: the object is
    as it was. *)
Lemma inspectPdf_throw_unchanged (buffer : Buffer) (o o' : Obj.t) (e : JsError) :
  inspectPdf load buffer o = (Throw e, o') -> o' = o.
Proof.
  destruct (load buffer true) as [ [ t a s c p cd md pc ] | e0 ] eqn:L.
  - destruct t as [ t | ], a as [ a | ], s as [ s | ], c as [ c | ], p as [ p | ],
      cd as [ cd | ], md as [ md | ], pc as [ pc | ];
      try (rewrite (inspectPdf_reads o L); discriminate);
      unfold inspectPdf, bind, lift; rewrite L; cbn; congruence.
  - unfold inspectPdf, bind, lift. rewrite L. congruence.
Qed.

End Extractor.

Lemma standardMetadata_runs (file : File.t) :
  standardMetadata file Obj.empty = (Normal tt, system_attributes file).
Proof. reflexivity. Qed.

Lemma system_attributes_eq (file : File.t) :
  system_attributes file =
  [ ("File Name", File.name file);
    ("File Size", (Js.toFixed2 (File.size file) 1024 ++ " KB")%string);
    ("MIME Type", Js.or_else (Some (File.type file)) "application/octet-stream");
    ("Last Modified", Js.toUTCString (File.lastModified file));
    ("Timestamp (Unix)", Js.num_to_string (File.lastModified file)) ].
Proof. reflexivity. Qed.

Lemma system_attributes_keys (file : File.t) :
  Obj.keys (system_attributes file) =
  [ "File Name"; "File Size"; "MIME Type"; "Last Modified"; "Timestamp (Unix)" ].
Proof. reflexivity. Qed.

Lemma set_new_key_appends (k v : string) (o : Obj.t) :
  Obj.get k o = None -> Obj.set k v o = (o ++ [(k, v)])%list.
Proof.
  induction o as [ | [k' v'] r IH ]; simpl; [ reflexivity | ].
  destruct (String.eqb k k'); [ discriminate | ].
  intros H. now rewrite IH.
Qed.

(** The extractor on a file that is neither a PDF nor an image. *)
Lemma extractMetadata_plain (load : PdfLoader) (file : File.t) (buffer : Buffer) :
  File.type file <> pdf_mime ->
  Js.startsWith (File.type file) "image/" = false ->
  extractMetadata load file buffer = Normal (system_attributes file).
Proof.
  intros NP NI. unfold extractMetadata, extractMetadata_body, bind.
  rewrite standardMetadata_runs.
  apply String.eqb_neq in NP. unfold pdf_mime in NP. rewrite NP, NI. reflexivity.
Qed.

(** The extractor returns on every input. *)
Lemma extractMetadata_total (load : PdfLoader) (file : File.t) (buffer : Buffer) :
  exists m, extractMetadata load file buffer = Normal m.
Proof.
  unfold extractMetadata, extractMetadata_body, bind.
  rewrite standardMetadata_runs.
  destruct (String.eqb (File.type file) "application/pdf"); cbn [when].
  - unfold try_catch.
    destruct (inspectPdf load buffer (system_attributes file)) as [ [ [] | e ] o ];
      cbn; destruct (Js.startsWith (File.type file) "image/"); cbn; eauto.
  - cbn. destruct (Js.startsWith (File.type file) "image/"); cbn; eauto.
Qed.

(** C3: the extractor never throws, and a PDF whose parse fails, at the
    load or at any getter, yields the system attributes followed by the one
    diagnostic attribute ["PDF Analysis"]. *)
Theorem extractMetadata_absorbs_parse_failure
    (load : PdfLoader) (file : File.t) (buffer : Buffer) :
  (exists m, extractMetadata load file buffer = Normal m) /\
  (File.type file = pdf_mime ->
   pdf_parse_fails load buffer ->
   extractMetadata load file buffer
   = Normal (system_attributes file ++ [pdf_diagnostic])%list).
Proof.
  split; [ apply extractMetadata_total | ].
  intros T F. unfold extractMetadata, extractMetadata_body, bind.
  rewrite standardMetadata_runs, T.
  change (String.eqb pdf_mime "application/pdf") with true.
  change (Js.startsWith pdf_mime "image/") with false.
  cbn [when]. unfold try_catch.
  specialize (F (system_attributes file)).
  destruct (inspectPdf load buffer (system_attributes file)) as [ [ [] | e ] o ] eqn:I.
  - discriminate F.
  - apply inspectPdf_throw_unchanged in I. subst o. reflexivity.
Qed.

Lemma extractMetadata_absorbs_parse_failure_witness :
  File.type scan_pdf = pdf_mime /\
  pdf_parse_fails no_pdf [] /\
  extractMetadata no_pdf scan_pdf []
  = Normal [ ("File Name", "scan.pdf"); ("File Size", "2.00 KB");
             ("MIME Type", "application/pdf");
             ("Last Modified", "Thu, 01 Jan 1970 00:00:00 GMT");
             ("Timestamp (Unix)", "0");
             ("PDF Analysis", "Encrypted or Corrupted Structure") ].
Proof.
  split; [ reflexivity | ].
  split; [ intros o; reflexivity | ].
  apply (proj2 (extractMetadata_absorbs_parse_failure no_pdf scan_pdf []));
    [ reflexivity | intros o; reflexivity ].
Defined.

(** The extractor on a PDF that loads and whose getters all return. *)
Lemma extractMetadata_pdf (load : PdfLoader) (file : File.t) (buffer : Buffer)
    (title author subject creator producer : option string)
    (creationDate modDate : option Z) (pageCount : Z) :
  File.type file = pdf_mime ->
  load buffer true =
    Normal (PDFDocument.mk (Normal title) (Normal author) (Normal subject)
              (Normal creator) (Normal producer) (Normal creationDate)
              (Normal modDate) (Normal pageCount)) ->
  extractMetadata load file buffer =
    Normal (pdf_attributes title author subject creator producer creationDate
              modDate pageCount (system_attributes file)).
Proof.
  intros T L. unfold extractMetadata, extractMetadata_body, bind.
  rewrite standardMetadata_runs, T.
  change (String.eqb pdf_mime "application/pdf") with true.
  change (Js.startsWith pdf_mime "image/") with false.
  cbn [when]. unfold try_catch. erewrite inspectPdf_reads by exact L. reflexivity.
Qed.

Lemma system_attributes_no_pdf_key (file : File.t) (k : string) :
  In k pdf_keys -> Obj.get k (system_attributes file) = None.
Proof.
  unfold pdf_keys. simpl In.
  intros H; repeat (destruct H as [ <- | H ]; [ reflexivity | ]); contradiction.
Qed.

Ltac pdf_key :=
  unfold pdf_attributes;
  rewrite get_set, !get_set_opt, system_attributes_no_pdf_key
    by (unfold pdf_keys; simpl In; tauto);
  cbn [String.eqb Ascii.eqb Bool.eqb].

Lemma option_map_spec (f : Z -> string) (d : option Z) (v : string) :
  match option_map f d with Some x => Some x | None => None end = Some v
  <-> exists t, d = Some t /\ v = f t.
Proof.
  destruct d as [ t | ]; simpl; split.
  - intros E. inversion E. now exists t.
  - intros [t' [E ->]]. now inversion E.
  - discriminate.
  - now intros [t' [E _]].
Qed.

Lemma nonempty_match (x : option string) (v : string) :
  match nonempty x with Some y => Some y | None => None end = Some v
  <-> x = Some v /\ v <> EmptyString.
Proof.
  rewrite <- nonempty_spec. now destruct (nonempty x).
Qed.

Lemma nonempty_not_empty (x : option string) :
  match nonempty x with Some y => Some y | None => None end <> Some EmptyString.
Proof.
  intros E. apply nonempty_match in E. now destruct E as [_ N].
Qed.

(** From the getters to the map: when the load succeeds and no getter throws,
    each text attribute is in the returned map exactly when its getter
    returns a string that is not empty, each date exactly when its getter
    returns one, the page count always; none of these attributes is ever the
    empty string. *)
Theorem extractMetadata_pdf_fields (load : PdfLoader) (file : File.t) (buffer : Buffer)
    (title author subject creator producer : option string)
    (creationDate modDate : option Z) (pageCount : Z) :
  File.type file = pdf_mime ->
  load buffer true =
    Normal (PDFDocument.mk (Normal title) (Normal author) (Normal subject)
              (Normal creator) (Normal producer) (Normal creationDate)
              (Normal modDate) (Normal pageCount)) ->
  exists m,
    extractMetadata load file buffer = Normal m /\
    (forall v, Obj.get "PDF Title" m = Some v <-> title = Some v /\ v <> EmptyString) /\
    (forall v, Obj.get "PDF Author" m = Some v <-> author = Some v /\ v <> EmptyString) /\
    (forall v, Obj.get "PDF Subject" m = Some v <-> subject = Some v /\ v <> EmptyString) /\
    (forall v, Obj.get "PDF Creator tool" m = Some v
               <-> creator = Some v /\ v <> EmptyString) /\
    (forall v, Obj.get "PDF Producer" m = Some v
               <-> producer = Some v /\ v <> EmptyString) /\
    (forall v, Obj.get "PDF Creation Date" m = Some v
               <-> exists d, creationDate = Some d /\ v = Js.toUTCString d) /\
    (forall v, Obj.get "PDF Mod Date" m = Some v
               <-> exists d, modDate = Some d /\ v = Js.toUTCString d) /\
    Obj.get "Page Count" m = Some (Js.num_to_string pageCount) /\
    (forall k, In k pdf_keys -> Obj.get k m <> Some EmptyString).
Proof.
  intros T L. eexists. split; [ eapply extractMetadata_pdf; eassumption | ].
  repeat match goal with |- _ /\ _ => split end.
  1-5: intros v; pdf_key; apply nonempty_match.
  1-2: intros v; pdf_key; apply option_map_spec.
  - now pdf_key.
  - unfold pdf_keys. simpl In.
    intros k H; repeat (destruct H as [ <- | H ]; [ pdf_key | ]); try contradiction.
    + apply nonempty_not_empty.
    + apply nonempty_not_empty.
    + apply nonempty_not_empty.
    + apply nonempty_not_empty.
    + apply nonempty_not_empty.
    + destruct creationDate; simpl; [ | discriminate ].
      intros E. inversion E. now apply toUTCString_nonempty with (t := z).
    + destruct modDate; simpl; [ | discriminate ].
      intros E. inversion E. now apply toUTCString_nonempty with (t := z).
    + intros E. inversion E. now apply num_to_string_nonempty with (z := pageCount).
Qed.

Lemma extractMetadata_pdf_fields_witness :
  File.type scan_pdf = pdf_mime /\
  exists m,
    extractMetadata sample_pdf_lib scan_pdf [] = Normal m /\
    Obj.get "PDF Author" m = Some "J. Doe" /\
    Obj.get "PDF Subject" m = None /\
    Obj.get "PDF Creator tool" m = None /\
    Obj.get "Page Count" m = Some "3".
Proof.
  split; [ reflexivity | ].
  destruct (@extractMetadata_pdf_fields sample_pdf_lib scan_pdf []
              (Some "Report") (Some "J. Doe") None (Some EmptyString)
              (Some pdflib_signature) (Some 0) (Some 86400000) 3 eq_refl eq_refl)
    as (m & E & _ & HA & HS & HC & _ & _ & _ & HP & _).
  exists m. split; [ exact E | ]. split; [ | split; [ | split ] ].
  - apply HA. split; [ reflexivity | discriminate ].
  - assert (G : forall v, Obj.get "PDF Subject" m <> Some v).
    { intros v G. apply HS in G. destruct G as [G _]. discriminate G. }
    destruct (Obj.get "PDF Subject" m) as [ v | ]; [ now elim (G v) | reflexivity ].
  - assert (G : forall v, Obj.get "PDF Creator tool" m <> Some v).
    { intros v G. apply HC in G. destruct G as [G N]. inversion G. subst v. now elim N. }
    destruct (Obj.get "PDF Creator tool" m) as [ v | ]; [ now elim (G v) | reflexivity ].
  - exact HP.
Defined.

(** C8: the extractor loads the document with pdf-lib's default
    [updateMetadata], which writes to the dictionary before the getters read
    it. On a PDF that parses, the returned map therefore always has
    'PDF Producer', with pdf-lib's own name, and 'PDF Mod Date', with the
    time of the load, whatever the file has; and when the file has no
    Creator or no CreationDate, 'PDF Creator tool' and 'PDF Creation Date'
    are in the map with the same values. Fields absent from the document are
    emitted, and the Producer and ModDate of the document never are. *)
Theorem extractMetadata_emits_absent_fields
    (load : PdfLoader) (file : File.t) (buffer : Buffer)
    (info : PdfInfo.t) (loadTime : Z) :
  File.type file = pdf_mime ->
  load buffer true = Normal (loaded_document info loadTime) ->
  exists m,
    extractMetadata load file buffer = Normal m /\
    Obj.get "PDF Producer" m = Some pdflib_signature /\
    Obj.get "PDF Mod Date" m = Some (Js.toUTCString loadTime) /\
    (PdfInfo.creator info = None ->
     Obj.get "PDF Creator tool" m = Some pdflib_signature) /\
    (PdfInfo.creationDate info = None ->
     Obj.get "PDF Creation Date" m = Some (Js.toUTCString loadTime)).
Proof.
  intros T L. unfold loaded_document in L.
  eexists. split; [ eapply extractMetadata_pdf; eassumption | ].
  repeat match goal with |- _ /\ _ => split end.
  - pdf_key. reflexivity.
  - pdf_key. reflexivity.
  - intros C. rewrite C. pdf_key. reflexivity.
  - intros C. rewrite C. pdf_key. reflexivity.
Qed.

Lemma extractMetadata_emits_absent_fields_witness :
  File.type scan_pdf = pdf_mime /\
  PdfInfo.producer bare_info = None /\
  PdfInfo.modDate bare_info = None /\
  PdfInfo.creator bare_info = None /\
  PdfInfo.creationDate bare_info = None /\
  exists m,
    extractMetadata bare_pdf_lib scan_pdf [] = Normal m /\
    Obj.get "PDF Producer" m = Some "pdf-lib (https://github.com/Hopding/pdf-lib)" /\
    Obj.get "PDF Mod Date" m = Some "Fri, 02 Jan 1970 00:00:00 GMT" /\
    Obj.get "PDF Creator tool" m = Some "pdf-lib (https://github.com/Hopding/pdf-lib)" /\
    Obj.get "PDF Creation Date" m = Some "Fri, 02 Jan 1970 00:00:00 GMT".
Proof.
  repeat (split; [ reflexivity | ]).
  destruct (@extractMetadata_emits_absent_fields bare_pdf_lib scan_pdf []
              bare_info 86400000 eq_refl eq_refl)
    as (m & E & P & D & C & K).
  exists m. split; [ exact E | ]. split; [ exact P | ].
  split; [ rewrite D; vm_compute; reflexivity | ].
  split; [ exact (C eq_refl) | ].
  rewrite (K eq_refl). vm_compute. reflexivity.
Defined.

Example bare_pdf_metadata_extracted :
  extractMetadata bare_pdf_lib scan_pdf [] = Normal bare_pdf_metadata.
Proof. vm_compute. reflexivity. Qed.

(** ** Classification *)

Lemma array_includes_In (l : list string) (k : string) :
  array_includes l k = true <-> In k l.
Proof.
  unfold array_includes. rewrite existsb_exists. split.
  - intros [x [I E]]. apply String.eqb_eq in E. now subst.
  - intros I. exists k. split; [ assumption | apply String.eqb_refl ].
Qed.

Lemma array_includes_not_In (l : list string) (k : string) :
  array_includes l k = false <-> ~ In k l.
Proof.
  rewrite <- array_includes_In. now destruct (array_includes l k).
Qed.

Lemma filter_split_Permutation {A} (p : A -> bool) (l : list A) :
  Permutation (filter p l ++ filter (fun x => negb (p x)) l) l.
Proof.
  induction l as [ | a l IH ]; simpl; [ constructor | ].
  destruct (p a); simpl.
  - now constructor.
  - apply Permutation_sym, Permutation_cons_app, Permutation_sym, IH.
Qed.

Lemma SENSITIVE_KEYS_eq :
  SENSITIVE_KEYS
  = [ "PDF Author"; "PDF Creator tool"; "PDF Producer"; "Author"; "Creator"; "Producer";
      "Last Modified By" ].
Proof. reflexivity. Qed.

(** C7: the classification splits the entries of a map by exact membership
    of the key in the taxonomy of seven keys, PDF Author, PDF Creator tool,
    PDF Producer, Author, Creator, Producer and Last Modified By: the
    sensitive entries are the entries of the map whose key is one of the
    seven, the general ones are the entries whose key is none of them, the
    two lists together are the entries of the map, each with its value and
    as often as in the map, no entry is in both lists, and two entries with
    the same key are classified alike. *)
Theorem classification_partitions (metadata : Obj.t) :
  (forall k v,
      In (k, v) (sensitiveData metadata)
      <-> In (k, v) (Obj.entries metadata) /\
          In k [ "PDF Author"; "PDF Creator tool"; "PDF Producer"; "Author"; "Creator";
                 "Producer"; "Last Modified By" ]) /\
  (forall k v,
      In (k, v) (generalData metadata)
      <-> In (k, v) (Obj.entries metadata) /\
          ~ In k [ "PDF Author"; "PDF Creator tool"; "PDF Producer"; "Author"; "Creator";
                   "Producer"; "Last Modified By" ]) /\
  Permutation (sensitiveData metadata ++ generalData metadata) (Obj.entries metadata) /\
  (forall e, ~ (In e (sensitiveData metadata) /\ In e (generalData metadata))) /\
  (forall k v v', In (k, v) (Obj.entries metadata) -> In (k, v') (Obj.entries metadata) ->
                  (In (k, v) (sensitiveData metadata)
                   <-> In (k, v') (sensitiveData metadata))).
Proof.
  rewrite <- SENSITIVE_KEYS_eq.
  assert (S : forall e, In e (sensitiveData metadata)
                        <-> In e (Obj.entries metadata) /\ In (fst e) SENSITIVE_KEYS).
  { intros e. unfold sensitiveData. rewrite filter_In. now rewrite array_includes_In. }
  assert (G : forall e, In e (generalData metadata)
                        <-> In e (Obj.entries metadata) /\ ~ In (fst e) SENSITIVE_KEYS).
  { intros e. unfold generalData. rewrite filter_In, negb_true_iff.
    now rewrite array_includes_not_In. }
  split; [ intros k v; exact (S (k, v)) | ].
  split; [ intros k v; exact (G (k, v)) | ]. split; [ | split ].
  - apply filter_split_Permutation.
  - intros e [Hs Hg]. apply S in Hs. apply G in Hg. tauto.
  - intros k v v' I I'. rewrite !S. simpl. tauto.
Qed.

Lemma classification_partitions_witness :
  (In ("PDF Author", "J. Doe") (sensitiveData taxonomy_sample) /\
   In ("PDF Creator tool", "Word") (sensitiveData taxonomy_sample) /\
   In ("PDF Producer", "Acrobat") (sensitiveData taxonomy_sample) /\
   In ("Author", "J. Doe") (sensitiveData taxonomy_sample) /\
   In ("Creator", "Word") (sensitiveData taxonomy_sample) /\
   In ("Producer", "Acrobat") (sensitiveData taxonomy_sample) /\
   In ("Last Modified By", "R. Roe") (sensitiveData taxonomy_sample)) /\
  (In ("File Name", "a.pdf") (generalData taxonomy_sample) /\
   In ("Page Count", "3") (generalData taxonomy_sample) /\
   In ("author", "J. Doe") (generalData taxonomy_sample) /\
   In ("PDF Title", "Report") (generalData taxonomy_sample)) /\
  List.length (sensitiveData taxonomy_sample) = 7%nat /\
  List.length (generalData taxonomy_sample) = 4%nat.
Proof.
  destruct (classification_partitions taxonomy_sample) as (S & G & P & _).
  split; [ | split; [ | split ] ].
  - repeat split; apply S; (split; [ simpl; tauto | simpl; tauto ]).
  - repeat split; apply G;
      (split;
       [ simpl; tauto
       | simpl; intros H;
         repeat (destruct H as [ H | H ]; [ discriminate H | ]); exact H ]).
  - reflexivity.
  - reflexivity.
Defined.

Example classification_of_author :
  sensitiveData [ ("File Name", "a.pdf"); ("PDF Author", "J. Doe"); ("Page Count", "3") ]
  = [ ("PDF Author", "J. Doe") ] /\
  generalData [ ("File Name", "a.pdf"); ("PDF Author", "J. Doe"); ("Page Count", "3") ]
  = [ ("File Name", "a.pdf"); ("Page Count", "3") ].
Proof. split; reflexivity. Qed.

Example classification_of_taxonomy_sample :
  sensitiveData taxonomy_sample
  = [ ("PDF Author", "J. Doe"); ("PDF Creator tool", "Word"); ("PDF Producer", "Acrobat");
      ("Author", "J. Doe"); ("Creator", "Word"); ("Producer", "Acrobat");
      ("Last Modified By", "R. Roe") ] /\
  generalData taxonomy_sample
  = [ ("File Name", "a.pdf"); ("Page Count", "3"); ("author", "J. Doe");
      ("PDF Title", "Report") ].
Proof. split; reflexivity. Qed.

(** ** Reset *)

(** What reset writes and what it keeps: it returns the component to
    [IDLE] and clears the record, the certified URL, the transaction hash,
    the logs, the error on display and the flags of the metadata and QR
    modals; the wallet and its signer are as before. *)
Theorem reset_clears_session_keeps_wallet (w : World) :
  fst (reset w) = Normal tt /\
  step (sess (snd (reset w))) = IDLE /\
  fileData (sess (snd (reset w))) = None /\
  certifiedPdfUrl (sess (snd (reset w))) = None /\
  txHash (sess (snd (reset w))) = None /\
  logs (sess (snd (reset w))) = [] /\
  errorDetails (sess (snd (reset w))) = None /\
  showMetadata (sess (snd (reset w))) = false /\
  showQRModal (sess (snd (reset w))) = false /\
  wallet (sess (snd (reset w))) = wallet (sess w) /\
  walletSigner (sess (snd (reset w))) = walletSigner (sess w).
Proof.
  repeat split.
Qed.

(** What else reset leaves as it was: the flag of the report modal, the
    report type, the biometric overlay and the theme; it calls no service. *)
Lemma reset_leaves_other_flags (w : World) :
  showReportConfig (sess (snd (reset w))) = showReportConfig (sess w) /\
  reportType (sess (snd (reset w))) = reportType (sess w) /\
  isBiometricScanning (sess (snd (reset w))) = isBiometricScanning (sess w) /\
  isDarkMode (sess (snd (reset w))) = isDarkMode (sess w) /\
  calls (snd (reset w)) = calls w.
Proof.
  repeat split.
Qed.

(** ** The capacity limit *)

Lemma MAX_SIZE_BYTES_eq : MAX_SIZE_BYTES = 52428800.
Proof. reflexivity. Qed.

(** C5: a file of more than 50 MiB is rejected: the capacity error is put on
    display, no service is called (no hashing, no extraction), and the step
    and the record are those of before, in the final state and in every
    state shown on the way. *)
Theorem processFile_rejects_oversize (svc : Services) (file : File.t) (w : World) :
  File.size file > 50 * 1024 * 1024 ->
  fst (processFile svc (Some file) w) = Normal tt /\
  sess (snd (processFile svc (Some file) w))
  = with_errorDetails (Some (capacity_error file)) (sess w) /\
  title (capacity_error file) = "Storage Capacity Exceeded" /\
  calls (snd (processFile svc (Some file) w)) = calls w /\
  blobs (snd (processFile svc (Some file) w)) = blobs w /\
  (forall s, In s (visible (snd (processFile svc (Some file) w))) ->
             In s (visible w) \/
             step s = step (sess w) /\ fileData s = fileData (sess w) /\
             logs s = logs (sess w)).
Proof.
  intros H. unfold processFile.
  assert (G : (File.size file >? MAX_SIZE_BYTES) = true).
  { rewrite MAX_SIZE_BYTES_eq. apply Z.gtb_lt. lia. }
  unfold bind at 1. cbn [setErrorDetails update]. rewrite G. cbn.
  repeat split.
  intros s [ <- | [ <- | I ] ]; cbn; auto.
Qed.

Lemma processFile_rejects_oversize_witness :
  File.size huge_bin > 50 * 1024 * 1024 /\
  step (sess (snd (processFile sample_services (Some huge_bin) (initial_world 0)))) = IDLE /\
  calls (snd (processFile sample_services (Some huge_bin) (initial_world 0))) = [].
Proof.
  assert (H : File.size huge_bin > 50 * 1024 * 1024) by (simpl; lia).
  split; [ exact H | ].
  destruct (processFile_rejects_oversize sample_services huge_bin (initial_world 0) H)
    as (_ & S & _ & C & _).
  rewrite S, C. split; reflexivity.
Defined.

Example capacity_error_text :
  description (capacity_error huge_bin)
  = ("The file " ++ dquote ++ "huge.bin" ++ dquote
       ++ " (50.00 MB) exceeds the 50MB safety limit.")%string.
Proof. reflexivity. Qed.

Example accepted_at_the_limit :
  step (sess (snd (processFile sample_services
                     (Some (File.mk "full.bin" 52428800 EmptyString 0))
                     (initial_world 0)))) = REVIEW.
Proof. reflexivity. Qed.

(** ** Running a handler

    The handlers are evaluated with sharing; the host functions on numbers
    and strings are left as they are. *)
Ltac evaluate :=
  lazy beta iota zeta delta
    -[Js.toUTCString Js.toFixed2 Js.num_to_string Js.nat_digits Js.substring0
      Js.includes Js.or_else Z.add String.append object_url List.length
      looks_like_web3 extractMetadata system_attributes capacity_error
      error_details app
      fileName fileSize fileType lastModified hashSHA256 hashSHA512 timestamp
      originalBuffer metadata File.name File.size File.type File.lastModified
      sha256 sha512 arrayBuffer calculateHashes PDFDocument_load stampPdf
      connectWallet mintEvidenceNFT resolveWeb3Error generateAuditReport
      generateWhitePaper generateJudicialReport generateSettlementReport].

Tactic Notation "evaluate" "in" hyp(H) :=
  lazy beta iota zeta delta
    -[Js.toUTCString Js.toFixed2 Js.num_to_string Js.nat_digits Js.substring0
      Js.includes Js.or_else Z.add String.append object_url List.length
      looks_like_web3 extractMetadata system_attributes capacity_error
      error_details app
      fileName fileSize fileType lastModified hashSHA256 hashSHA512 timestamp
      originalBuffer metadata File.name File.size File.type File.lastModified
      sha256 sha512 arrayBuffer calculateHashes PDFDocument_load stampPdf
      connectWallet mintEvidenceNFT resolveWeb3Error generateAuditReport
      generateWhitePaper generateJudicialReport generateSettlementReport] in H.

(** ** Sealing *)

Lemma resolve_url_head (url : string) (b : Blob) (l : list (string * Blob)) :
  resolve_url url ((url, b) :: l) = Some b.
Proof. simpl. now rewrite String.eqb_refl. Qed.

(** The bytes sealed for a file that is not a PDF are those of the original
    buffer, and the stamping service is not called. *)
Lemma sealBytes_passthrough (svc : Services) (d : ForensicData)
    (a : option string) (w : World) :
  fileType d <> pdf_mime ->
  fst (sealBytes svc d a w) = Normal (originalBuffer d) /\
  calls (snd (sealBytes svc d a w)) = calls w.
Proof.
  intros N. apply String.eqb_neq in N. unfold sealBytes. rewrite N.
  split; reflexivity.
Qed.

(** C6: sealing a record whose file is not a PDF returns normally, ends in
    [CERTIFIED], and the certified URL resolves to a blob whose bytes are the
    original buffer, byte for byte; the stamping service is not called and
    the record is the one of before. *)
Theorem handleCertification_passthrough (svc : Services) (w : World) (d : ForensicData) :
  fileData (sess w) = Some d ->
  fileType d <> pdf_mime ->
  exists w',
    handleCertification svc w = (Normal tt, w') /\
    step (sess w') = CERTIFIED /\
    fileData (sess w') = Some d /\
    (exists url,
       certifiedPdfUrl (sess w') = Some url /\
       resolve_url url (blobs w')
       = Some {| blob_parts := originalBuffer d; blob_type := fileType d |}) /\
    calls w'
    = CreateObjectURL {| blob_parts := originalBuffer d; blob_type := fileType d |}
        :: calls w.
Proof.
  intros F N. apply String.eqb_neq in N.
  destruct w as [ [ st fd wl ws lg tx cu bio sm sq src rt ed dm ] h n b c ].
  simpl in F. subst fd.
  destruct (handleCertification _ _) as [r w'] eqn:E.
  unfold handleCertification, render in E. unfold bind at 1 in E.
  cbv beta iota delta [sess fileData] in E. unfold sealBytes in E. rewrite N in E.
  evaluate in E. injection E as <- <-.
  eexists. split; [ reflexivity | ].
  split; [ reflexivity | ]. split; [ reflexivity | ]. split; [ | reflexivity ].
  eexists. split; [ reflexivity | apply resolve_url_head ].
Qed.

Example reviewed_world_record : fileData (sess reviewed_world) = Some notes_record.
Proof. vm_compute. reflexivity. Qed.

Example reviewed_pdf_world_record : fileData (sess reviewed_pdf_world) = Some scan_record.
Proof. vm_compute. reflexivity. Qed.

Lemma handleCertification_passthrough_witness :
  fileData (sess reviewed_world) = Some notes_record /\
  fileType notes_record <> pdf_mime /\
  exists w',
    handleCertification sample_services reviewed_world = (Normal tt, w') /\
    step (sess w') = CERTIFIED /\
    resolve_url "blob:0" (blobs w') = Some (mkBlob [x74; x65; x73; x74] "text/plain").
Proof.
  assert (F : fileData (sess reviewed_world) = Some notes_record)
    by (vm_compute; reflexivity).
  assert (N : fileType notes_record <> pdf_mime) by discriminate.
  split; [ exact F | ]. split; [ exact N | ].
  destruct (handleCertification_passthrough sample_services reviewed_world F N)
    as (w' & E & S & _ & (url & U & R) & _).
  exists w'. split; [ exact E | ]. split; [ exact S | ].
  assert (C : certifiedPdfUrl (sess w') = Some "blob:0").
  { replace w' with (snd (handleCertification sample_services reviewed_world))
      by (rewrite E; reflexivity).
    vm_compute. reflexivity. }
  rewrite U in C. injection C as ->. exact R.
Defined.

(** C4: when the stamping service fails on a PDF record, the handler shows
    the error (in the error modal and as an [Error] entry of the log), ends
    in [REVIEW], and leaves the record, the certified URL, the transaction
    hash and the object URLs as they were. *)
Theorem handleCertification_failure_returns_to_review
    (svc : Services) (w : World) (d : ForensicData) (e : JsError) :
  fileData (sess w) = Some d ->
  fileType d = pdf_mime ->
  stampPdf svc d (address (wallet (sess w))) = Throw e ->
  exists w',
    handleCertification svc w = (Normal tt, w') /\
    step (sess w') = REVIEW /\
    fileData (sess w') = Some d /\
    errorDetails (sess w') = Some (error_details svc e) /\
    error_logged (sess w) (sess w') /\
    certifiedPdfUrl (sess w') = certifiedPdfUrl (sess w) /\
    txHash (sess w') = txHash (sess w) /\
    blobs w' = blobs w.
Proof.
  intros F T X.
  destruct w as [ [ st fd wl ws lg tx cu bio sm sq src rt ed dm ] h n b c ].
  simpl in F, X. subst fd.
  destruct (handleCertification _ _) as [r w'] eqn:E.
  unfold handleCertification, render in E. unfold bind at 1 in E.
  cbv beta iota delta [sess fileData wallet] in E. unfold sealBytes in E.
  rewrite T in E. change (String.eqb pdf_mime pdf_mime) with true in E.
  cbv iota in E. rewrite X in E.
  evaluate in E. injection E as <- <-.
  eexists. split; [ reflexivity | ].
  repeat (split; [ reflexivity | ]). split; [ | repeat split ].
  unfold error_logged. simpl logs. rewrite <- !app_assoc.
  eexists. eexists. split; [ reflexivity | ]. split; [ | ].
  - simpl. do 4 right. left. reflexivity.
  - reflexivity.
Qed.

Lemma handleCertification_failure_returns_to_review_witness :
  fileData (sess reviewed_pdf_world) = Some scan_record /\
  fileType scan_record = pdf_mime /\
  stampPdf failing_stamp scan_record (address (wallet (sess reviewed_pdf_world)))
  = Throw quiet_error /\
  exists w',
    handleCertification failing_stamp reviewed_pdf_world = (Normal tt, w') /\
    step (sess w') = REVIEW /\
    fileData (sess w') = Some scan_record /\
    errorDetails (sess w') = Some (operation_failed quiet_error).
Proof.
  assert (F : fileData (sess reviewed_pdf_world) = Some scan_record)
    by (vm_compute; reflexivity).
  assert (X : stampPdf failing_stamp scan_record
                (address (wallet (sess reviewed_pdf_world))) = Throw quiet_error)
    by reflexivity.
  split; [ exact F | ]. split; [ reflexivity | ]. split; [ exact X | ].
  destruct (handleCertification_failure_returns_to_review
              failing_stamp reviewed_pdf_world F eq_refl X)
    as (w' & E & S & D & R & _).
  exists w'. repeat (split; [ assumption | ]). exact R.
Defined.

(** ** A logic for the handlers

    A relation [R] between the world before and after, reflexive and
    transitive, is kept by a handler when each of its steps keeps it. The
    steps that write the state are judged by a relation [Q] on states that
    holds at least of the writes that leave the step and the record alone. *)

Section Keeps.

Variable Q : Session -> Session -> Prop.
Variable R : World -> World -> Prop.

Hypothesis Q_frame : forall s s', same_stage s s' -> Q s s'.
Hypothesis R_refl : forall w, R w w.
Hypothesis R_trans : forall a b c, R a b -> R b c -> R a c.
Hypothesis R_update :
  forall f w, Q (sess w) (f (sess w)) -> R w (snd (update f w)).
Hypothesis R_quiet :
  forall w w', sess w' = sess w -> history w' = history w -> R w w'.

Lemma keeps_ret {A} (a : A) : keeps R (ret a).
Proof. intros w. apply R_refl. Qed.

Lemma keeps_lift {A} (c : Completion A) : keeps R (lift c).
Proof. intros w. apply R_refl. Qed.

Lemma keeps_render : keeps R render.
Proof. intros w. apply R_refl. Qed.

Lemma keeps_Date_now : keeps R Date_now.
Proof. intros w. apply R_refl. Qed.

Lemma keeps_sleep (ms : Z) : keeps R (sleep ms).
Proof. intros w. now apply R_quiet. Qed.

Lemma keeps_external {A} (c : Call) (r : Completion A) : keeps R (external c r).
Proof. intros w. now apply R_quiet. Qed.

Lemma keeps_createObjectURL (b : Blob) : keeps R (createObjectURL b).
Proof. intros w. now apply R_quiet. Qed.

Lemma keeps_bind {A B} (m : M World A) (k : A -> M World B) :
  keeps R m -> (forall a, keeps R (k a)) -> keeps R (bind m k).
Proof.
  intros Hm Hk w. unfold bind. specialize (Hm w).
  destruct (m w) as [ [ a | e ] w1 ]; simpl in *.
  - apply R_trans with w1; [ assumption | apply Hk ].
  - assumption.
Qed.

Lemma keeps_try {A} (body : M World A) (h : JsError -> M World A) :
  keeps R body -> (forall e, keeps R (h e)) -> keeps R (try_catch body h).
Proof.
  intros Hb Hh w. unfold try_catch. specialize (Hb w).
  destruct (body w) as [ [ a | e ] w1 ]; simpl in *.
  - assumption.
  - apply R_trans with w1; [ assumption | apply Hh ].
Qed.

Lemma keeps_update (f : Session -> Session) :
  (forall s, Q s (f s)) -> keeps R (update f).
Proof. intros H w. apply R_update, H. Qed.

Lemma keeps_update_frame (f : Session -> Session) :
  (forall s, same_stage s (f s)) -> keeps R (update f).
Proof. intros H. apply keeps_update. intros s. apply Q_frame, H. Qed.

(** One step of a proof that a handler keeps [R], chosen by the head of the
    computation. *)
Ltac keeps_step :=
  lazymatch goal with
  | |- keeps _ (bind _ _) => apply keeps_bind; [ | intro ]
  | |- keeps _ (try_catch _ _) => apply keeps_try; [ | intro ]
  | |- keeps _ (ret _) => apply keeps_ret
  | |- keeps _ (lift _) => apply keeps_lift
  | |- keeps _ render => apply keeps_render
  | |- keeps _ Date_now => apply keeps_Date_now
  | |- keeps _ (sleep _) => apply keeps_sleep
  | |- keeps _ (external _ _) => apply keeps_external
  | |- keeps _ (createObjectURL _) => apply keeps_createObjectURL
  | |- keeps _ (update _) => apply keeps_update_frame; intro; split; reflexivity
  | |- keeps _ (match ?x with _ => _ end) => destruct x
  end.

Lemma keeps_addLog (text : string) (type : LogType) : keeps R (addLog text type).
Proof. unfold addLog. repeat keeps_step. Qed.

Lemma keeps_setErrorDetails v : keeps R (setErrorDetails v).
Proof. unfold setErrorDetails. keeps_step. Qed.

Variable svc : Services.

Lemma keeps_handleError (e : JsError) : keeps R (handleError svc e).
Proof.
  unfold handleError. cbv zeta.
  apply keeps_bind; [ apply keeps_setErrorDetails | intro; apply keeps_addLog ].
Qed.

Lemma keeps_download (bytes : Buffer) (filename : string) :
  keeps R (download bytes filename).
Proof. unfold download. repeat keeps_step. Qed.

Ltac keeps_handler :=
  repeat lazymatch goal with
    | |- keeps _ (addLog _ _) => apply keeps_addLog
    | |- keeps _ (setErrorDetails _) => apply keeps_setErrorDetails
    | |- keeps _ (handleError _ _) => apply keeps_handleError
    | |- keeps _ (download _ _) => apply keeps_download
    | |- keeps _ (handleWalletConnect _) => fail
    | |- _ => keeps_step
    end.

Lemma keeps_handleWalletConnect : keeps R (handleWalletConnect svc).
Proof.
  unfold handleWalletConnect, setWallet, setWalletSigner. keeps_handler.
Qed.

Lemma keeps_handleMinting : keeps R (handleMinting svc).
Proof.
  unfold handleMinting, setTxHash. keeps_handler; apply keeps_handleWalletConnect.
Qed.

Lemma keeps_downloadAuditReport : keeps R (downloadAuditReport svc).
Proof. unfold downloadAuditReport. keeps_handler. Qed.

Lemma keeps_downloadWhitePaper : keeps R (downloadWhitePaper svc).
Proof. unfold downloadWhitePaper. keeps_handler. Qed.

Lemma keeps_openReportConfig (t : ReportType) : keeps R (openReportConfig t).
Proof. unfold openReportConfig, setReportType, setShowReportConfig. keeps_handler. Qed.

Lemma keeps_handleGenerateSpecializedReport (reportData : TradingReportData) :
  keeps R (handleGenerateSpecializedReport svc reportData).
Proof.
  unfold handleGenerateSpecializedReport, setShowReportConfig. cbv zeta.
  keeps_handler.
Qed.

Lemma keeps_handler_frame (e : Event) :
  leaves_stage e = true -> keeps R (handler svc e).
Proof.
  destruct e as [ | | | [ f | ] | | | | | | t | | | | | | reportData ];
    simpl; try discriminate; intros _.
  - apply keeps_handleWalletConnect.
  - unfold toggleTheme, setIsDarkMode. keeps_step.
  - apply keeps_setErrorDetails.
  - apply keeps_ret.
  - unfold setShowMetadata. keeps_step.
  - unfold setShowQRModal. keeps_step.
  - apply keeps_handleMinting.
  - apply keeps_downloadAuditReport.
  - apply keeps_openReportConfig.
  - apply keeps_downloadWhitePaper.
  - unfold setShowMetadata. keeps_step.
  - unfold setShowQRModal. keeps_step.
  - unfold setShowReportConfig. keeps_step.
  - apply keeps_handleGenerateSpecializedReport.
Qed.

(** The handlers that do write the step or the record keep [R] when [Q]
    also holds of a write of the step and of a write of a record that is
    absent or has both digests. *)

Hypothesis Q_step : forall v s, Q s (with_step v s).
Hypothesis Q_record : forall v s, whole_or_absent v -> Q s (with_fileData v s).

Ltac keeps_stage :=
  repeat lazymatch goal with
    | |- keeps _ (addLog _ _) => apply keeps_addLog
    | |- keeps _ (setErrorDetails _) => apply keeps_setErrorDetails
    | |- keeps _ (handleError _ _) => apply keeps_handleError
    | |- keeps _ (update (with_step _)) => apply keeps_update; intro; apply Q_step
    | |- keeps _ (update (with_fileData _)) =>
        apply keeps_update; intro; apply Q_record;
        cbv [whole_or_absent digests_set hashSHA256 hashSHA512]; eauto
    | |- _ => keeps_step
    end.

Lemma keeps_processFile (file : option File.t) : keeps R (processFile svc file).
Proof.
  unfold processFile, all_with_timer, setCertifiedPdfUrl, setTxHash, setLogs,
    setStep, setFileData.
  keeps_stage.
Qed.

Lemma keeps_handleCertification : keeps R (handleCertification svc).
Proof.
  unfold handleCertification, sealBytes, setIsBiometricScanning, setStep,
    setCertifiedPdfUrl.
  keeps_stage.
Qed.

Lemma keeps_reset : keeps R reset.
Proof.
  unfold reset, setStep, setFileData, setLogs, setTxHash, setCertifiedPdfUrl,
    setShowMetadata, setShowQRModal.
  keeps_stage.
Qed.

Lemma keeps_every_handler (e : Event) : keeps R (handler svc e).
Proof.
  destruct (leaves_stage e) eqn:L; [ now apply keeps_handler_frame | ].
  destruct e as [ | | | [ f | ] | | | | | | t | | | | | | reportData ];
    try discriminate L.
  - exact (keeps_processFile (Some f)).
  - exact keeps_handleCertification.
  - exact keeps_reset.
Qed.

End Keeps.

(** ** Analysis of a submitted file *)

Lemma plain_text_not_image : Js.startsWith "text/plain" "image/" = false.
Proof. reflexivity. Qed.

(** C9, as the code has it: a plain-text file within the limit whose hashing
    succeeds takes a fresh component through [IDLE], [ANALYZING] and
    [REVIEW], and leaves a record with both digests and the FIVE system
    attributes [File Name], [File Size], [MIME Type], [Last Modified] and
    [Timestamp (Unix)], none of them sensitive. *)
Theorem processFile_plain_text
    (svc : Services) (file : File.t) (hr : HashResult) (t0 : Z) :
  File.type file = "text/plain" ->
  File.size file <= 50 * 1024 * 1024 ->
  calculateHashes svc file = Normal hr ->
  exists w' d,
    processFile svc (Some file) (initial_world t0) = (Normal tt, w') /\
    step_trace w' = [IDLE; ANALYZING; REVIEW] /\
    fileData (sess w') = Some d /\
    hashSHA256 d = Some (sha256 hr) /\
    hashSHA512 d = Some (sha512 hr) /\
    Obj.keys (metadata d)
    = [ "File Name"; "File Size"; "MIME Type"; "Last Modified"; "Timestamp (Unix)" ] /\
    sensitiveData (metadata d) = [] /\
    generalData (metadata d) = Obj.entries (metadata d).
Proof.
  intros T S H.
  assert (G : (File.size file >? MAX_SIZE_BYTES) = false).
  { rewrite MAX_SIZE_BYTES_eq, Z.gtb_ltb. apply Z.ltb_ge. lia. }
  assert (X : forall b, extractMetadata (PDFDocument_load svc) file b
                        = Normal (system_attributes file)).
  { intros b. apply extractMetadata_plain.
    - rewrite T. discriminate.
    - rewrite T. reflexivity. }
  destruct (processFile _ _ _) as [r w'] eqn:E.
  unfold processFile in E. unfold bind at 1 in E.
  cbv beta iota delta [setErrorDetails update snd sess initial_world] in E.
  rewrite G in E. unfold all_with_timer in E. rewrite H in E.
  evaluate in E. rewrite X in E. evaluate in E.
  injection E as <- <-.
  eexists. eexists. split; [ reflexivity | ].
  split; [ reflexivity | ]. split; [ reflexivity | ].
  repeat split.
Qed.

Lemma processFile_plain_text_witness :
  File.type notes_txt = "text/plain" /\
  File.size notes_txt <= 50 * 1024 * 1024 /\
  calculateHashes sample_services notes_txt = Normal sample_hashes /\
  exists w' d,
    processFile sample_services (Some notes_txt) (initial_world 0) = (Normal tt, w') /\
    step_trace w' = [IDLE; ANALYZING; REVIEW] /\
    fileData (sess w') = Some d /\
    Obj.keys (metadata d)
    = [ "File Name"; "File Size"; "MIME Type"; "Last Modified"; "Timestamp (Unix)" ] /\
    sensitiveData (metadata d) = [].
Proof.
  assert (S : File.size notes_txt <= 50 * 1024 * 1024) by (simpl; lia).
  split; [ reflexivity | ]. split; [ exact S | ]. split; [ reflexivity | ].
  destruct (@processFile_plain_text sample_services notes_txt sample_hashes 0
              eq_refl S eq_refl)
    as (w' & d & E & Tr & F & _ & _ & K & Sd & _).
  exists w', d. repeat (split; [ assumption | ]). assumption.
Defined.

(** The claim has four system attributes where the code writes five: the
    record left by a 10 KB plain-text file has both digests and no
    sensitive attribute, and five attributes. *)
Lemma plain_text_record_has_five_attributes :
  step_trace reviewed_world = [IDLE; ANALYZING; REVIEW] /\
  (exists d,
     fileData (sess reviewed_world) = Some d /\
     hashSHA256 d = Some "9f86d081884c7d65" /\
     hashSHA512 d = Some "ee26b0dd4af7e749" /\
     sensitiveData (metadata d) = [] /\
     List.length (Obj.entries (metadata d)) = 5%nat) /\
  ~ (exists d,
       fileData (sess reviewed_world) = Some d /\
       List.length (Obj.entries (metadata d)) = 4%nat).
Proof.
  split; [ vm_compute; reflexivity | ]. split.
  - exists notes_record. repeat split.
  - intros (d & F & L).
    rewrite reviewed_world_record in F. injection F as <-. discriminate L.
Qed.

(** ** The record has both digests or is absent *)


Lemma record_whole_same_record (s s' : Session) :
  fileData s' = fileData s -> record_whole s -> record_whole s'.
Proof. unfold record_whole. intros ->. auto. Qed.

Lemma whole_handler (svc : Services) (e : Event) :
  keeps whole_world_step (handler svc e).
Proof.
  apply keeps_every_handler with (Q := whole_session_step).
  - intros s s' [_ F]. exact (@record_whole_same_record s s' F).
  - intros w H. exact H.
  - intros a b c Hab Hbc H. apply Hbc, Hab, H.
  - intros f w Hq H s [ <- | I ].
    + apply Hq, H. now left.
    + apply H, I.
  - intros w w' Hs Hh H s I. apply H. unfold visible in *. now rewrite <- Hs, <- Hh.
  - intros v s. exact (@record_whole_same_record s (with_step v s) eq_refl).
  - intros [ d | ] s W _; [ right | left; reflexivity ].
    exists d. now split.
Qed.

(** C2: in every world the handlers can produce, every state that was ever
    shown, the current one included, has no record or a record with both
    digests. *)
Theorem record_digests_set_together (w : World) (s : Session) :
  reachable w ->
  In s (visible w) ->
  fileData s = None \/
  exists d, fileData s = Some d /\
            (exists h, hashSHA256 d = Some h) /\ (exists h, hashSHA512 d = Some h).
Proof.
  intros Hr. revert s.
  change (forall s, In s (visible w) -> record_whole s).
  induction Hr as [ t0 | w ms Hr IH Hms | w svc e Hr IH ].
  - intros s [ <- | [] ]. now left.
  - exact IH.
  - exact (@whole_handler svc e w IH).
Qed.

Lemma visible_current (w : World) : In (sess w) (visible w).
Proof. left. reflexivity. Qed.

Lemma certified_world_reachable : reachable certified_world.
Proof.
  unfold certified_world, reviewed_world.
  do 2 apply reachable_handler. apply reachable_initial.
Qed.

Lemma record_digests_set_together_witness :
  reachable certified_world /\
  In (sess certified_world) (visible certified_world) /\
  (fileData (sess certified_world) = None \/
   exists d, fileData (sess certified_world) = Some d /\
             (exists h, hashSHA256 d = Some h) /\ (exists h, hashSHA512 d = Some h)).
Proof.
  split; [ exact certified_world_reachable | ].
  split; [ exact (visible_current certified_world) | ].
  exact (record_digests_set_together certified_world_reachable
           (visible_current certified_world)).
Defined.

Example certified_world_record :
  step (sess certified_world) = CERTIFIED /\
  fileData (sess certified_world) = Some notes_record /\
  step_trace certified_world = [IDLE; ANALYZING; REVIEW; PROCESSING; CERTIFIED] /\
  List.length (visible certified_world) = 28%nat.
Proof. vm_compute. repeat split. Qed.

(** ** Sealing outside of Review *)

Lemma frame_handler (svc : Services) (e : Event) :
  leaves_stage e = true -> keeps same_stage_world (handler svc e).
Proof.
  apply keeps_handler_frame with (Q := same_stage).
  - auto.
  - intros w. split; reflexivity.
  - intros a b c [S1 F1] [S2 F2]. split; congruence.
  - intros f w H. exact H.
  - intros w w' Hs _. unfold same_stage_world. rewrite Hs. split; reflexivity.
Qed.


(** Sealing from Review does not end idle. *)
Lemma handleCertification_not_idle (svc : Services) (w : World) :
  step (sess w) = REVIEW ->
  step (sess (snd (handleCertification svc w))) <> IDLE.
Proof.
  intros S.
  destruct w as [ [ st fd wl ws lg tx cu bio sm sq src rt ed dm ] h n b c ].
  simpl in S. subst st.
  destruct (handleCertification _ _) as [r w'] eqn:E.
  unfold handleCertification, render in E. unfold bind at 1 in E.
  cbv beta iota delta [sess fileData wallet] in E.
  destruct fd as [ d | ].
  - unfold sealBytes in E.
    destruct (String.eqb (fileType d) pdf_mime).
    + destruct (stampPdf svc d (address wl)) as [ bytes | e ];
        evaluate in E; injection E as <- <-; discriminate.
    + evaluate in E. injection E as <- <-. discriminate.
  - evaluate in E. injection E as <- <-. discriminate.
Qed.

Lemma enabled_seal_in_review (s : Session) :
  enabled SealClicked s = true -> step s = REVIEW.
Proof.
  unfold enabled, seal_button_rendered, seal_button_disabled.
  destruct (step s); simpl; intros H; try reflexivity;
    rewrite ?andb_false_r in H; discriminate H.
Qed.

Lemma enabled_drop_in_idle (f : option File.t) (s : Session) :
  enabled (FileDropped f) s = true -> step s = IDLE.
Proof.
  unfold enabled. destruct (step s); simpl; intros H; try reflexivity; discriminate H.
Qed.








(** Called on a certified component, the handler, which tests the record and
    not the step, seals again; the button is not rendered there. *)
Example handleCertification_on_certified :
  step (sess certified_world) = CERTIFIED /\
  seal_button_rendered (sess certified_world) = false /\
  certifiedPdfUrl (sess certified_world) = Some "blob:0" /\
  certifiedPdfUrl (sess (snd (handleCertification sample_services certified_world)))
  = Some "blob:1".
Proof. vm_compute. repeat split. Qed.
(** ** More on the metadata extractor *)

Lemma get_None_keys (k : string) (o : Obj.t) :
  Obj.get k o = None <-> ~ In k (Obj.keys o).
Proof.
  induction o as [ | [k' v'] r IH ]; simpl.
  - tauto.
  - destruct (String.eqb k k') eqn:E.
    + apply String.eqb_eq in E. subst. split; [ discriminate | tauto ].
    + apply String.eqb_neq in E. rewrite IH. split.
      * intros H [ -> | I ]; tauto.
      * tauto.
Qed.

Lemma get_Some_In (k v : string) (o : Obj.t) :
  Obj.get k o = Some v -> In (k, v) (Obj.entries o).
Proof.
  induction o as [ | [k' v'] r IH ]; simpl; [ discriminate | ].
  destruct (String.eqb k k') eqn:E.
  - apply String.eqb_eq in E. subst. intros H. inversion H. now left.
  - intros H. right. now apply IH.
Qed.

Lemma keys_set (k v : string) (o : Obj.t) :
  Obj.keys (Obj.set k v o) =
  match Obj.get k o with
  | Some _ => Obj.keys o
  | None => (Obj.keys o ++ [k])%list
  end.
Proof.
  unfold Obj.keys.
  induction o as [ | [k' v'] r IH ]; simpl; [ reflexivity | ].
  destruct (String.eqb k k') eqn:E; simpl; [ reflexivity | ].
  rewrite IH. now destruct (Obj.get k r).
Qed.

Lemma set_after_prefix (k v : string) (a b : Obj.t) :
  Obj.get k a = None -> Obj.set k v (a ++ b)%list = (a ++ Obj.set k v b)%list.
Proof.
  induction a as [ | [k' v'] r IH ]; simpl; [ reflexivity | ].
  destruct (String.eqb k k'); [ discriminate | ].
  intros H. now rewrite IH.
Qed.


Lemma system_attributes_no_format_key (file : File.t) (k : string) :
  In k format_keys -> Obj.get k (system_attributes file) = None.
Proof.
  unfold format_keys, pdf_keys. simpl In.
  intros H; repeat (destruct H as [ <- | H ]; [ reflexivity | ]); contradiction.
Qed.

Lemma NoDup_snoc {A} (l : list A) (a : A) :
  NoDup l -> ~ In a l -> NoDup (l ++ [a]).
Proof.
  intros N I. apply Permutation_NoDup with (a :: l).
  - apply Permutation_cons_append.
  - now constructor.
Qed.

Lemma shape_set (file : File.t) (o : Obj.t) (k v : string) :
  In k format_keys -> extractor_shape file o -> extractor_shape file (Obj.set k v o).
Proof.
  intros K (rest & -> & S & N). exists (Obj.set k v rest).
  split; [ | split ].
  - apply set_after_prefix. exact (@system_attributes_no_format_key file k K).
  - intros k'. rewrite keys_set. destruct (Obj.get k rest); [ apply S | ].
    rewrite in_app_iff. intros [ I | [ <- | [] ] ]; [ now apply S | exact K ].
  - rewrite keys_set. destruct (Obj.get k rest) eqn:G; [ exact N | ].
    apply NoDup_snoc; [ exact N | now apply get_None_keys ].
Qed.

Lemma shape_set_opt (file : File.t) (o : Obj.t) (k : string) (v : option string) :
  In k format_keys -> extractor_shape file o -> extractor_shape file (set_opt k v o).
Proof.
  destruct v; simpl; [ apply shape_set | auto ].
Qed.

Lemma shape_system (file : File.t) : extractor_shape file (system_attributes file).
Proof.
  exists []. split; [ now rewrite app_nil_r | ]. split; [ intros k [] | constructor ].
Qed.

(** The block of the [try] either writes the attributes of a document that
    was read, or throws and leaves the object as it was. *)
Lemma inspectPdf_cases (load : PdfLoader) (buffer : Buffer) (o : Obj.t) :
  (exists t a s c p cd md pc,
     inspectPdf load buffer o = (Normal tt, pdf_attributes t a s c p cd md pc o)) \/
  (exists e, inspectPdf load buffer o = (Throw e, o)).
Proof.
  destruct (load buffer true) as [ [ t a s c p cd md pc ] | e0 ] eqn:L.
  - destruct t as [ t | ], a as [ a | ], s as [ s | ], c as [ c | ], p as [ p | ],
      cd as [ cd | ], md as [ md | ], pc as [ pc | ];
      try (left; exists t, a, s, c, p, cd, md, pc; now apply inspectPdf_reads);
      right; unfold inspectPdf, bind, lift; rewrite L; cbn; eauto.
  - right. unfold inspectPdf, bind, lift. rewrite L. eauto.
Qed.

Lemma shape_pdf_attributes (file : File.t) (o : Obj.t)
    (t a s c p : option string) (cd md : option Z) (pc : Z) :
  extractor_shape file o -> extractor_shape file (pdf_attributes t a s c p cd md pc o).
Proof.
  intros H. unfold pdf_attributes.
  apply shape_set; [ unfold format_keys, pdf_keys; simpl; tauto | ].
  repeat (apply shape_set_opt; [ unfold format_keys, pdf_keys; simpl; tauto | ]).
  exact H.
Qed.

(** The object the extractor returns, by cases on the type and on the
    outcome of the inspection. *)
Lemma extractMetadata_cases (load : PdfLoader) (file : File.t) (buffer : Buffer) :
  exists inspected,
    extractMetadata load file buffer =
      Normal (if Js.startsWith (File.type file) "image/"
              then Obj.set "Image Analysis" "Bitmap Data Present" inspected
              else inspected) /\
    ((File.type file <> pdf_mime /\ inspected = system_attributes file) \/
     (File.type file = pdf_mime /\
      ((exists t a s c p cd md pc,
          inspected = pdf_attributes t a s c p cd md pc (system_attributes file)) \/
       inspected = Obj.set "PDF Analysis" "Encrypted or Corrupted Structure"
                     (system_attributes file)))).
Proof.
  unfold extractMetadata, extractMetadata_body, bind.
  rewrite standardMetadata_runs.
  destruct (String.eqb (File.type file) "application/pdf") eqn:T; cbn [when].
  - apply String.eqb_eq in T. unfold try_catch.
    destruct (inspectPdf_cases load buffer (system_attributes file))
      as [ (t & a & s & c & p & cd & md & pc & I) | (e & I) ]; rewrite I.
    + eexists. split.
      * destruct (Js.startsWith (File.type file) "image/"); reflexivity.
      * right. split; [ exact T | ]. left. eauto 10.
    + eexists. split.
      * cbn. destruct (Js.startsWith (File.type file) "image/"); reflexivity.
      * right. split; [ exact T | ]. now right.
  - apply String.eqb_neq in T. eexists. split.
    + cbn. destruct (Js.startsWith (File.type file) "image/"); reflexivity.
    + left. now split.
Qed.

Lemma system_keys_NoDup (file : File.t) : NoDup (Obj.keys (system_attributes file)).
Proof.
  rewrite system_attributes_keys.
  repeat (constructor; [ simpl; intuition discriminate | ]). constructor.
Qed.

Lemma extractMetadata_extractor_shape
    (load : PdfLoader) (file : File.t) (buffer : Buffer) :
  exists m, extractMetadata load file buffer = Normal m /\ extractor_shape file m.
Proof.
  destruct (extractMetadata_cases load file buffer) as (o & E & C).
  assert (S : extractor_shape file o).
  { destruct C as [ [_ ->] | [_ [ (t & a & s & c & p & cd & md & pc & ->) | -> ] ] ].
    - apply shape_system.
    - apply shape_pdf_attributes, shape_system.
    - apply shape_set; [ unfold format_keys, pdf_keys; simpl; tauto | ].
      apply shape_system. }
  eexists. split; [ exact E | ].
  destruct (Js.startsWith (File.type file) "image/"); [ | exact S ].
  apply shape_set; [ unfold format_keys, pdf_keys; simpl; tauto | exact S ].
Qed.

(** X1: whatever the type of the file and whatever pdf-lib does, the
    extractor returns a map that starts with the five system attributes, in
    their order and with their values; the keys after them are keys of the
    PDF inspection, ["PDF Analysis"] or ["Image Analysis"]; and no key is in
    the map twice. *)
Theorem extractMetadata_shape (load : PdfLoader) (file : File.t) (buffer : Buffer) :
  exists rest,
    extractMetadata load file buffer = Normal (system_attributes file ++ rest)%list /\
    (forall k, In k (Obj.keys rest) -> In k format_keys) /\
    NoDup (Obj.keys (system_attributes file ++ rest)%list).
Proof.
  destruct (extractMetadata_extractor_shape load file buffer)
    as (m & E & rest & R & K & N).
  exists rest. rewrite E, R.
  split; [ reflexivity | ]. split; [ exact K | ].
  unfold Obj.keys. rewrite map_app. apply NoDup_app.
  - apply system_keys_NoDup.
  - exact N.
  - intros k I J. apply K in J.
    apply system_attributes_no_format_key with (file := file) in J.
    apply get_None_keys in J. now apply J.
Qed.

Lemma system_attributes_general (file : File.t) :
  sensitiveData (system_attributes file) = [] /\
  generalData (system_attributes file) = system_attributes file.
Proof. split; reflexivity. Qed.

Lemma sensitiveData_app (a b : Obj.t) :
  sensitiveData (a ++ b)%list = (sensitiveData a ++ sensitiveData b)%list.
Proof. apply filter_app. Qed.

Lemma generalData_app (a b : Obj.t) :
  generalData (a ++ b)%list = (generalData a ++ generalData b)%list.
Proof. apply filter_app. Qed.

Lemma extractMetadata_not_pdf (load : PdfLoader) (file : File.t) (buffer : Buffer) :
  File.type file <> pdf_mime ->
  extractMetadata load file buffer
  = Normal (system_attributes file ++
            (if Js.startsWith (File.type file) "image/"
             then [image_attribute] else []))%list.
Proof.
  intros T.
  destruct (extractMetadata_cases load file buffer) as (o & E & [ [_ ->] | [P _] ]);
    [ | now elim T ].
  rewrite E. destruct (Js.startsWith (File.type file) "image/").
  - reflexivity.
  - now rewrite app_nil_r.
Qed.

Lemma not_pdf_nothing_sensitive (file : File.t) :
  sensitiveData (system_attributes file ++
                 (if Js.startsWith (File.type file) "image/"
                  then [image_attribute] else []))%list = [].
Proof.
  rewrite sensitiveData_app.
  destruct (Js.startsWith (File.type file) "image/"); reflexivity.
Qed.

(** X2: for a file whose type is not [application/pdf], whatever pdf-lib
    would do with its bytes, the extractor returns the five system
    attributes, followed by the ["Image Analysis"] attribute exactly when the
    type starts with [image/]; nothing in the result is sensitive. *)
Theorem extractMetadata_without_pdf
    (load : PdfLoader) (file : File.t) (buffer : Buffer) :
  File.type file <> pdf_mime ->
  extractMetadata load file buffer
  = Normal (system_attributes file ++
            (if Js.startsWith (File.type file) "image/"
             then [image_attribute] else []))%list /\
  (forall m, extractMetadata load file buffer = Normal m -> sensitiveData m = []).
Proof.
  intros T. split; [ now apply extractMetadata_not_pdf | ].
  intros m H. pose proof (@extractMetadata_not_pdf load file buffer T) as P.
  assert (M : m = (system_attributes file ++
                   (if Js.startsWith (File.type file) "image/"
                    then [image_attribute] else []))%list) by congruence.
  subst m. apply not_pdf_nothing_sensitive.
Qed.

Lemma extractMetadata_without_pdf_witness :
  File.type photo_png <> pdf_mime /\
  extractMetadata sample_pdf_lib photo_png []
  = Normal [ ("File Name", "photo.png"); ("File Size", "4.00 KB");
             ("MIME Type", "image/png");
             ("Last Modified", "Thu, 01 Jan 1970 00:00:00 GMT");
             ("Timestamp (Unix)", "0");
             ("Image Analysis", "Bitmap Data Present") ].
Proof.
  assert (T : File.type photo_png <> pdf_mime) by discriminate.
  split; [ exact T | ].
  exact (proj1 (@extractMetadata_without_pdf sample_pdf_lib photo_png [] T)).
Defined.

(** X3: of the seven sensitive keys, the extractor can only produce
    ["PDF Author"], ["PDF Creator tool"] and ["PDF Producer"], and only for a
    file of type [application/pdf]: every entry the viewer classifies as
    sensitive in a map that the extractor returned has one of these keys. *)
Theorem extracted_sensitive_entries
    (load : PdfLoader) (file : File.t) (buffer : Buffer) (m : Obj.t) (k v : string) :
  extractMetadata load file buffer = Normal m ->
  In (k, v) (sensitiveData m) ->
  In k extracted_sensitive_keys /\ File.type file = pdf_mime.
Proof.
  intros E I. split.
  - destruct (extractMetadata_extractor_shape load file buffer)
      as (m' & E' & rest & R & K & _).
    rewrite E in E'. injection E' as <-. subst m.
    rewrite sensitiveData_app in I.
    rewrite (proj1 (system_attributes_general file)) in I. simpl in I.
    unfold sensitiveData in I. apply filter_In in I. destruct I as [I S].
    apply array_includes_In in S. simpl fst in S.
    assert (F : In k format_keys).
    { apply K. unfold Obj.keys. apply in_map_iff. now exists (k, v). }
    clear - F S. unfold format_keys, pdf_keys in F. unfold SENSITIVE_KEYS in S.
    unfold extracted_sensitive_keys. simpl in *.
    repeat (destruct F as [ <- | F ]; [ intuition discriminate | ]). contradiction.
  - destruct (string_dec (File.type file) pdf_mime) as [ T | T ]; [ exact T | ].
    pose proof (@extractMetadata_not_pdf load file buffer T) as P.
    assert (M : m = (system_attributes file ++
                     (if Js.startsWith (File.type file) "image/"
                      then [image_attribute] else []))%list) by congruence.
    subst m. rewrite not_pdf_nothing_sensitive in I. contradiction.
Qed.

Example sample_pdf_metadata_extracted :
  extractMetadata sample_pdf_lib scan_pdf [] = Normal sample_pdf_metadata.
Proof. reflexivity. Qed.

Lemma extracted_sensitive_entries_witness :
  extractMetadata sample_pdf_lib scan_pdf [] = Normal sample_pdf_metadata /\
  In ("PDF Author", "J. Doe") (sensitiveData sample_pdf_metadata) /\
  In "PDF Author" extracted_sensitive_keys /\ File.type scan_pdf = pdf_mime.
Proof.
  assert (E : extractMetadata sample_pdf_lib scan_pdf [] = Normal sample_pdf_metadata)
    by reflexivity.
  assert (I : In ("PDF Author", "J. Doe") (sensitiveData sample_pdf_metadata))
    by (left; reflexivity).
  split; [ exact E | ]. split; [ exact I | ].
  exact (extracted_sensitive_entries sample_pdf_lib scan_pdf [] "PDF Author" "J. Doe" E I).
Defined.

(** X4: when a PDF parses and has an author that is not the empty string,
    the entry [("PDF Author", author)] is in the sensitive part of the
    classification of the returned map and no ["PDF Author"] entry is in the
    general part. *)
Theorem pdf_author_is_sensitive (load : PdfLoader) (file : File.t) (buffer : Buffer)
    (title subject creator producer : option string) (author : string)
    (creationDate modDate : option Z) (pageCount : Z) :
  File.type file = pdf_mime ->
  author <> EmptyString ->
  load buffer true =
    Normal (PDFDocument.mk (Normal title) (Normal (Some author)) (Normal subject)
              (Normal creator) (Normal producer) (Normal creationDate)
              (Normal modDate) (Normal pageCount)) ->
  exists m,
    extractMetadata load file buffer = Normal m /\
    In ("PDF Author", author) (sensitiveData m) /\
    (forall v, ~ In ("PDF Author", v) (generalData m)).
Proof.
  intros T A L. eexists. split; [ eapply extractMetadata_pdf; eassumption | ].
  split.
  - unfold sensitiveData. apply filter_In. split; [ | reflexivity ].
    apply get_Some_In. pdf_key.
    apply nonempty_match. now split.
  - intros v I. unfold generalData in I. apply filter_In in I.
    destruct I as [_ I]. discriminate I.
Qed.

Lemma pdf_author_is_sensitive_witness :
  File.type scan_pdf = pdf_mime /\
  "J. Doe" <> EmptyString /\
  exists m,
    extractMetadata sample_pdf_lib scan_pdf [] = Normal m /\
    In ("PDF Author", "J. Doe") (sensitiveData m).
Proof.
  assert (A : "J. Doe" <> EmptyString) by discriminate.
  split; [ reflexivity | ]. split; [ exact A | ].
  destruct (@pdf_author_is_sensitive sample_pdf_lib scan_pdf [] (Some "Report") None
              (Some EmptyString) (Some pdflib_signature) "J. Doe" (Some 0)
              (Some 86400000) 3 eq_refl A eq_refl)
    as (m & E & I & _).
  exists m. now split.
Defined.

(** ** The metadata viewer *)

Lemma classification_lengths (m : Obj.t) :
  (List.length (sensitiveData m) + List.length (generalData m))%nat
  = List.length (Obj.entries m).
Proof.
  rewrite <- length_app. apply Permutation_length.
  apply (filter_split_Permutation (fun e => array_includes SENSITIVE_KEYS (fst e))).
Qed.

(** X5: the viewer shows the row "No extractable metadata found." exactly
    for the empty map; for a map returned by the extractor it never does, and
    the general table has at least the five system attributes. *)
Theorem empty_notice_only_for_empty_map :
  (forall m, empty_notice_rendered m = true <-> Obj.entries m = []) /\
  (forall load file buffer m,
     extractMetadata load file buffer = Normal m ->
     empty_notice_rendered m = false /\
     exists rest, generalData m = (system_attributes file ++ rest)%list).
Proof.
  split.
  - intros m. unfold empty_notice_rendered. rewrite andb_true_iff, !Nat.eqb_eq.
    pose proof (classification_lengths m) as L. split.
    + intros [G S]. rewrite G, S in L. simpl in L.
      destruct (Obj.entries m); [ reflexivity | discriminate L ].
    + intros E. rewrite E in L. simpl in L. lia.
  - intros load file buffer m E.
    destruct (extractMetadata_extractor_shape load file buffer)
      as (m' & E' & rest & R & _).
    assert (M : m = m') by congruence. subst m'. subst m.
    rewrite generalData_app, (proj2 (system_attributes_general file)).
    split; [ | eauto ].
    unfold empty_notice_rendered.
    rewrite generalData_app, (proj2 (system_attributes_general file)).
    reflexivity.
Qed.

(** ** What the handlers leave alone *)

Section Frames.

Variable A : Type.
Variable f : Session -> A.

Lemma preserves_refl (w : World) : preserves f w w.
Proof. reflexivity. Qed.

Lemma preserves_trans (a b c : World) :
  preserves f a b -> preserves f b c -> preserves f a c.
Proof. unfold preserves. congruence. Qed.

Lemma preserves_quiet (w w' : World) :
  sess w' = sess w -> history w' = history w -> preserves f w w'.
Proof. unfold preserves. now intros ->. Qed.

Lemma pres_bind {B C} (m : M World B) (k : B -> M World C) :
  keeps (preserves f) m -> (forall b, keeps (preserves f) (k b)) ->
  keeps (preserves f) (bind m k).
Proof. apply keeps_bind, preserves_trans. Qed.

Lemma pres_try {B} (body : M World B) (h : JsError -> M World B) :
  keeps (preserves f) body -> (forall e, keeps (preserves f) (h e)) ->
  keeps (preserves f) (try_catch body h).
Proof. apply keeps_try, preserves_trans. Qed.

Lemma pres_ret {B} (b : B) : keeps (preserves f) (ret b).
Proof. apply keeps_ret, preserves_refl. Qed.

Lemma pres_render : keeps (preserves f) render.
Proof. apply keeps_render, preserves_refl. Qed.

Lemma pres_Date_now : keeps (preserves f) Date_now.
Proof. intros w. apply preserves_refl. Qed.

Lemma pres_sleep (ms : Z) : keeps (preserves f) (sleep ms).
Proof. apply keeps_sleep, preserves_quiet. Qed.

Lemma pres_external {B} (c : Call) (r : Completion B) :
  keeps (preserves f) (external c r).
Proof. apply keeps_external, preserves_quiet. Qed.

Lemma pres_createObjectURL (b : Blob) : keeps (preserves f) (createObjectURL b).
Proof. intros w. reflexivity. Qed.

Lemma pres_update (g : Session -> Session) :
  (forall s, f (g s) = f s) -> keeps (preserves f) (update g).
Proof. intros H w. apply H. Qed.

End Frames.

(** One step of a proof that a handler leaves a part of the state as it
    was; a write must be of another part. *)
Ltac frame_step :=
  lazymatch goal with
  | |- keeps _ (bind _ _) => apply pres_bind; [ | intro ]
  | |- keeps _ (try_catch _ _) => apply pres_try; [ | intro ]
  | |- keeps _ (ret _) => apply pres_ret
  | |- keeps _ render => apply pres_render
  | |- keeps _ Date_now => apply pres_Date_now
  | |- keeps _ (sleep _) => apply pres_sleep
  | |- keeps _ (external _ _) => apply pres_external
  | |- keeps _ (createObjectURL _) => apply pres_createObjectURL
  | |- keeps _ (update _) => apply pres_update; intro; reflexivity
  | |- keeps _ (match ?x with _ => _ end) => destruct x
  end.

Ltac frame :=
  unfold handler, processFile, handleCertification, handleMinting,
    handleWalletConnect, downloadAuditReport, downloadWhitePaper,
    openReportConfig, handleGenerateSpecializedReport, reset, toggleTheme,
    sealBytes, download, handleError, addLog, all_with_timer,
    setStep, setFileData, setWallet, setWalletSigner, setLogs, setTxHash,
    setCertifiedPdfUrl, setIsBiometricScanning, setShowMetadata, setShowQRModal,
    setShowReportConfig, setReportType, setErrorDetails, setIsDarkMode;
  cbv zeta; repeat frame_step.

Lemma wallet_frame (svc : Services) (e : Event) :
  writes_wallet e = false -> keeps (preserves wallet_of) (handler svc e).
Proof.
  intros W.
  destruct e as [ | | | [ file | ] | | | | | | t | | | | | | reportData ];
    try discriminate W; frame.
Qed.

(** X6: the wallet and its signer survive every handler but the two that
    connect a wallet: dropping a file, sealing, the downloads and reports,
    the modals and reset leave both as they were, whatever the services
    do. *)
Theorem wallet_survives (svc : Services) (e : Event) (w : World) :
  writes_wallet e = false ->
  wallet (sess (snd (handler svc e w))) = wallet (sess w) /\
  walletSigner (sess (snd (handler svc e w))) = walletSigner (sess w).
Proof.
  intros W. pose proof (@wallet_frame svc e W w) as K.
  unfold preserves, wallet_of in K. now inversion K.
Qed.

Lemma wallet_survives_witness :
  writes_wallet SealClicked = false /\
  wallet (sess certified_world) = wallet (sess reviewed_world).
Proof.
  split; [ reflexivity | ].
  exact (proj1 (@wallet_survives sample_services SealClicked reviewed_world eq_refl)).
Defined.

(** X7: the record is written by the analysis of a dropped file and by
    reset only: sealing, on success and on failure, anchoring, connecting a
    wallet and every report leave the record of the state as it was. *)
Theorem record_is_read_only (svc : Services) (e : Event) (w : World) :
  writes_record e = false ->
  fileData (sess (snd (handler svc e w))) = fileData (sess w).
Proof.
  intros W.
  assert (K : keeps (preserves fileData) (handler svc e)).
  { destruct e as [ | | | [ file | ] | | | | | | t | | | | | | reportData ];
      try discriminate W; frame. }
  exact (K w).
Qed.

Lemma record_is_read_only_witness :
  writes_record SealClicked = false /\
  fileData (sess certified_world) = fileData (sess reviewed_world).
Proof.
  split; [ reflexivity | ].
  exact (@record_is_read_only sample_services SealClicked reviewed_world eq_refl).
Defined.

(** ** The analysis of a file, for every type of file *)

(** X8: when hashing fails, the analysis of an accepted file ends idle with
    the error on display; the extractor is not called, the record of the
    state is the one of before, the certified URL and the transaction hash
    are cleared, and the rejection is not held back by the animation
    timer. *)
Theorem processFile_hash_failure
    (svc : Services) (file : File.t) (w : World) (e : JsError) :
  File.size file <= 50 * 1024 * 1024 ->
  calculateHashes svc file = Throw e ->
  exists w',
    processFile svc (Some file) w = (Normal tt, w') /\
    step (sess w') = IDLE /\
    fileData (sess w') = fileData (sess w) /\
    errorDetails (sess w') = Some (error_details svc e) /\
    certifiedPdfUrl (sess w') = None /\
    txHash (sess w') = None /\
    (exists entry, In entry (logs (sess w')) /\ type entry = Error) /\
    calls w' = CalculateHashes file :: calls w /\
    now w' = now w.
Proof.
  intros S H.
  assert (G : (File.size file >? MAX_SIZE_BYTES) = false).
  { rewrite MAX_SIZE_BYTES_eq, Z.gtb_ltb. apply Z.ltb_ge. lia. }
  destruct w as [ [ st fd wl ws lg tx cu bio sm sq src rt ed dm ] h n b c ].
  destruct (processFile _ _ _) as [r w'] eqn:E.
  unfold processFile in E. unfold bind at 1 in E.
  cbv beta iota delta [setErrorDetails update snd sess] in E.
  rewrite G in E. unfold all_with_timer in E. rewrite H in E.
  evaluate in E. injection E as <- <-.
  eexists. split; [ reflexivity | ].
  repeat (split; [ reflexivity | ]). split; [ | split; reflexivity ].
  eexists. split; [ simpl; do 3 right; left; reflexivity | reflexivity ].
Qed.

Lemma processFile_hash_failure_witness :
  File.size notes_txt <= 50 * 1024 * 1024 /\
  calculateHashes failing_hash notes_txt = Throw quiet_error /\
  exists w',
    processFile failing_hash (Some notes_txt) (initial_world 0) = (Normal tt, w') /\
    step (sess w') = IDLE /\
    errorDetails (sess w') = Some (operation_failed quiet_error) /\
    calls w' = [CalculateHashes notes_txt].
Proof.
  assert (S : File.size notes_txt <= 50 * 1024 * 1024) by (simpl; lia).
  split; [ exact S | ]. split; [ reflexivity | ].
  destruct (@processFile_hash_failure failing_hash notes_txt (initial_world 0)
              quiet_error S eq_refl)
    as (w' & E & St & _ & Er & _ & _ & _ & C & _).
  exists w'. repeat (split; [ assumption | ]). exact C.
Defined.

(** X9: for a file of any type within the limit, the analysis succeeds as
    soon as hashing does: the extractor cannot abort it. The component ends
    in Review with the record built from the file, the two digests and the
    buffer of the hash result, the metadata returned by the extractor, and a
    timestamp taken no sooner than 2.5 seconds after the start, the sum of
    the three timers; the certified URL and the transaction hash are
    cleared. *)
Theorem processFile_success
    (svc : Services) (file : File.t) (w : World) (hr : HashResult) :
  File.size file <= 50 * 1024 * 1024 ->
  calculateHashes svc file = Normal hr ->
  exists w' m t,
    processFile svc (Some file) w = (Normal tt, w') /\
    extractMetadata (PDFDocument_load svc) file (arrayBuffer hr) = Normal m /\
    step (sess w') = REVIEW /\
    now w + 2500 <= t /\
    fileData (sess w') = Some (record_of file hr m t) /\
    certifiedPdfUrl (sess w') = None /\
    txHash (sess w') = None /\
    errorDetails (sess w') = None /\
    calls w' = ExtractMetadata file :: CalculateHashes file :: calls w.
Proof.
  intros S H.
  assert (G : (File.size file >? MAX_SIZE_BYTES) = false).
  { rewrite MAX_SIZE_BYTES_eq, Z.gtb_ltb. apply Z.ltb_ge. lia. }
  destruct (extractMetadata_total (PDFDocument_load svc) file (arrayBuffer hr))
    as [m X].
  destruct w as [ [ st fd wl ws lg tx cu bio sm sq src rt ed dm ] h n b c ].
  destruct (processFile _ _ _) as [r w'] eqn:E.
  unfold processFile in E. unfold bind at 1 in E.
  cbv beta iota delta [setErrorDetails update snd sess] in E.
  rewrite G in E. unfold all_with_timer in E. rewrite H in E.
  evaluate in E. rewrite X in E. evaluate in E.
  injection E as <- <-.
  eexists. exists m. exists (n + 1500 + 500 + 500).
  split; [ reflexivity | ]. split; [ exact X | ].
  split; [ reflexivity | ]. split; [ simpl; lia | ].
  repeat split.
Qed.

Lemma processFile_success_witness :
  File.size scan_pdf <= 50 * 1024 * 1024 /\
  calculateHashes sample_services scan_pdf = Normal sample_hashes /\
  exists w' t,
    processFile sample_services (Some scan_pdf) (initial_world 0) = (Normal tt, w') /\
    step (sess w') = REVIEW /\
    2500 <= t /\
    fileData (sess w') = Some (record_of scan_pdf sample_hashes sample_pdf_metadata t).
Proof.
  assert (S : File.size scan_pdf <= 50 * 1024 * 1024) by (simpl; lia).
  split; [ exact S | ]. split; [ reflexivity | ].
  destruct (@processFile_success sample_services scan_pdf (initial_world 0)
              sample_hashes S eq_refl)
    as (w' & m & t & E & X & St & B & F & _).
  exists w', t. split; [ exact E | ]. split; [ exact St | ]. split; [ exact B | ].
  rewrite F. vm_compute in X. injection X as <-. reflexivity.
Defined.

(** ** Sealing a PDF *)

(** X10: sealing a PDF record whose stamping succeeds calls the stamping
    service once, with the record and the address of the wallet of the
    state, and ends in [CERTIFIED] with a certified URL that resolves to a
    blob of type [application/pdf] holding the stamped bytes; the biometric
    overlay is closed, no error is on display, and no less than the 2.5
    seconds of the biometric timer have passed. *)
Theorem handleCertification_stamps_pdf
    (svc : Services) (w : World) (d : ForensicData) (stamped : Buffer) :
  fileData (sess w) = Some d ->
  fileType d = pdf_mime ->
  stampPdf svc d (address (wallet (sess w))) = Normal stamped ->
  exists w' url,
    handleCertification svc w = (Normal tt, w') /\
    step (sess w') = CERTIFIED /\
    fileData (sess w') = Some d /\
    certifiedPdfUrl (sess w') = Some url /\
    resolve_url url (blobs w')
    = Some {| blob_parts := stamped; blob_type := pdf_mime |} /\
    isBiometricScanning (sess w') = false /\
    errorDetails (sess w') = None /\
    calls w'
    = CreateObjectURL {| blob_parts := stamped; blob_type := pdf_mime |}
        :: StampPdf d (address (wallet (sess w))) :: calls w /\
    now w + 2500 <= now w'.
Proof.
  intros F T X.
  destruct w as [ [ st fd wl ws lg tx cu bio sm sq src rt ed dm ] h n b c ].
  simpl in F, X. subst fd.
  destruct (handleCertification _ _) as [r w'] eqn:E.
  unfold handleCertification, render in E. unfold bind at 1 in E.
  cbv beta iota delta [sess fileData wallet] in E. unfold sealBytes in E.
  rewrite T in E. change (String.eqb pdf_mime pdf_mime) with true in E.
  cbv iota in E. rewrite X in E.
  evaluate in E. injection E as <- <-.
  eexists. eexists. split; [ reflexivity | ].
  split; [ reflexivity | ]. split; [ reflexivity | ]. split; [ reflexivity | ].
  split; [ apply resolve_url_head | ].
  split; [ reflexivity | ]. split; [ reflexivity | ]. split; [ reflexivity | ].
  simpl. lia.
Qed.

Lemma handleCertification_stamps_pdf_witness :
  fileData (sess reviewed_pdf_world) = Some scan_record /\
  fileType scan_record = pdf_mime /\
  stampPdf sample_services scan_record (address (wallet (sess reviewed_pdf_world)))
  = Normal [x74; x65; x73; x74; x2a] /\
  exists w',
    handleCertification sample_services reviewed_pdf_world = (Normal tt, w') /\
    step (sess w') = CERTIFIED /\
    resolve_url "blob:0" (blobs w')
    = Some (mkBlob [x74; x65; x73; x74; x2a] "application/pdf").
Proof.
  assert (F : fileData (sess reviewed_pdf_world) = Some scan_record)
    by (vm_compute; reflexivity).
  assert (X : stampPdf sample_services scan_record
                (address (wallet (sess reviewed_pdf_world)))
              = Normal [x74; x65; x73; x74; x2a]) by reflexivity.
  split; [ exact F | ]. split; [ reflexivity | ]. split; [ exact X | ].
  destruct (handleCertification_stamps_pdf
              sample_services reviewed_pdf_world F eq_refl X)
    as (w' & url & E & S & _ & U & R & _).
  exists w'. split; [ exact E | ]. split; [ exact S | ].
  assert (C : certifiedPdfUrl (sess w') = Some "blob:0").
  { replace w' with (snd (handleCertification sample_services reviewed_pdf_world))
      by (rewrite E; reflexivity).
    vm_compute. reflexivity. }
  rewrite U in C. injection C as ->. exact R.
Defined.

(** ** The wallet *)

(** X11: connecting a wallet always returns normally and leaves a
    consistent wallet: on success the wallet is connected with the address,
    the chain and the signer that the service returned and no error is on
    display; on failure the wallet is disconnected, without address, chain
    or signer, and the error is on display. The step, the record and the
    transaction hash are as before. *)
Theorem handleWalletConnect_outcome (svc : Services) (w : World) :
  exists w',
    handleWalletConnect svc w = (Normal tt, w') /\
    wallet_consistent (sess w') /\
    match connectWallet svc with
    | Normal c =>
        wallet (sess w')
        = {| address := Some (conn_address c); isConnected := true;
             chainId := Some (conn_chainId c) |} /\
        walletSigner (sess w') = Some (conn_signer c) /\
        errorDetails (sess w') = None
    | Throw e =>
        wallet (sess w') = {| address := None; isConnected := false; chainId := None |} /\
        walletSigner (sess w') = None /\
        errorDetails (sess w') = Some (error_details svc e)
    end /\
    step (sess w') = step (sess w) /\
    fileData (sess w') = fileData (sess w) /\
    txHash (sess w') = txHash (sess w) /\
    calls w' = ConnectWallet :: calls w.
Proof.
  destruct w as [ [ st fd wl ws lg tx cu bio sm sq src rt ed dm ] h n b c ].
  destruct (handleWalletConnect _ _) as [r w'] eqn:E.
  unfold handleWalletConnect in E.
  destruct (connectWallet svc) as [ cn | e ];
    evaluate in E; injection E as <- <-;
    eexists; (split; [ reflexivity | ]); repeat split.
Qed.

(** X12: minting without a connected wallet or without a signer mints
    nothing: the transaction hash is as before, the only service called is
    the wallet connection, and the state at the end is the one that
    connecting the wallet leaves. *)
Theorem handleMinting_without_wallet (svc : Services) (w : World) :
  isConnected (wallet (sess w)) = false \/ walletSigner (sess w) = None ->
  exists w',
    handleMinting svc w = (Normal tt, w') /\
    sess w' = sess (snd (handleWalletConnect svc w)) /\
    txHash (sess w') = txHash (sess w) /\
    calls w' = ConnectWallet :: calls w.
Proof.
  intros H.
  destruct w as [ [ st fd [ ad ic ch ] ws lg tx cu bio sm sq src rt ed dm ] h n b c ].
  simpl in H.
  destruct (handleMinting _ _) as [r w'] eqn:E.
  unfold handleMinting, render in E. unfold bind at 1 in E.
  cbv beta iota delta [sess wallet walletSigner isConnected] in E.
  unfold handleWalletConnect.
  destruct (connectWallet svc) as [ cn | e ] eqn:C.
  - destruct ic, ws as [ sg | ]; try (destruct H; discriminate);
      unfold handleWalletConnect in E; rewrite C in E;
      evaluate in E; injection E as <- <-;
      (eexists; split; [ reflexivity | ]);
      evaluate; repeat split; simpl; auto 10.
  - destruct ic, ws as [ sg | ]; try (destruct H; discriminate);
      unfold handleWalletConnect in E; rewrite C in E;
      evaluate in E; injection E as <- <-;
      (eexists; split; [ reflexivity | ]);
      evaluate; repeat split; simpl; auto 10.
Qed.

Lemma handleMinting_without_wallet_witness :
  (isConnected (wallet (sess certified_world)) = false \/
   walletSigner (sess certified_world) = None) /\
  exists w',
    handleMinting connected_services certified_world = (Normal tt, w') /\
    txHash (sess w') = txHash (sess certified_world) /\
    calls w' = ConnectWallet :: calls certified_world.
Proof.
  assert (H : isConnected (wallet (sess certified_world)) = false \/
              walletSigner (sess certified_world) = None)
    by (left; vm_compute; reflexivity).
  split; [ exact H | ].
  destruct (@handleMinting_without_wallet connected_services certified_world H)
    as (w' & E & _ & T & C).
  exists w'. now repeat split.
Defined.

(** X13: minting with a connected wallet and a signer. Without a record it
    only clears the error on display. With a record it submits the SHA-256
    digest of the record with the signer of the state, once: on success the
    transaction hash is the one returned; on failure the transaction hash is
    as before and the error is on display. The step, the record, the
    certified URL and the wallet are as before in every case. *)
Theorem handleMinting_connected (svc : Services) (w : World) (signer : Signer) :
  isConnected (wallet (sess w)) = true ->
  walletSigner (sess w) = Some signer ->
  exists w',
    handleMinting svc w = (Normal tt, w') /\
    match fileData (sess w) with
    | None =>
        sess w' = with_errorDetails None (sess w) /\ calls w' = calls w
    | Some d =>
        calls w' = MintEvidenceNFT (hashSHA256 d) signer :: calls w /\
        match mintEvidenceNFT svc (hashSHA256 d) signer with
        | Normal tx =>
            txHash (sess w') = Some tx /\ errorDetails (sess w') = None
        | Throw e =>
            txHash (sess w') = txHash (sess w) /\
            errorDetails (sess w') = Some (error_details svc e)
        end
    end /\
    step (sess w') = step (sess w) /\
    fileData (sess w') = fileData (sess w) /\
    certifiedPdfUrl (sess w') = certifiedPdfUrl (sess w) /\
    wallet (sess w') = wallet (sess w) /\
    walletSigner (sess w') = walletSigner (sess w).
Proof.
  intros I S.
  destruct w as [ [ st fd [ ad ic ch ] ws lg tx cu bio sm sq src rt ed dm ] h n b c ].
  simpl in I, S. subst ic ws.
  destruct (handleMinting _ _) as [r w'] eqn:E.
  unfold handleMinting, render in E. unfold bind at 1 in E.
  cbv beta iota delta [sess wallet walletSigner isConnected fileData] in E.
  destruct fd as [ d | ].
  - destruct (mintEvidenceNFT svc (hashSHA256 d) signer) as [ t | e ] eqn:X;
      evaluate in E; injection E as <- <-;
      (eexists; split; [ reflexivity | ]); simpl; rewrite ?X; repeat split.
  - evaluate in E. injection E as <- <-.
    eexists. split; [ reflexivity | ]. repeat split.
Qed.

Lemma handleMinting_connected_witness :
  isConnected (wallet (sess connected_world)) = true /\
  walletSigner (sess connected_world) = Some (SignerOf "0xfeed") /\
  exists w',
    handleMinting connected_services connected_world = (Normal tt, w') /\
    txHash (sess w') = Some "0xabc" /\
    step (sess w') = CERTIFIED.
Proof.
  assert (I : isConnected (wallet (sess connected_world)) = true)
    by (vm_compute; reflexivity).
  assert (S : walletSigner (sess connected_world) = Some (SignerOf "0xfeed"))
    by (vm_compute; reflexivity).
  split; [ exact I | ]. split; [ exact S | ].
  destruct (@handleMinting_connected connected_services connected_world _ I S)
    as (w' & E & M & St & _).
  exists w'. split; [ exact E | ].
  replace (fileData (sess connected_world)) with (Some notes_record) in M
    by (vm_compute; reflexivity).
  destruct M as [_ M]. simpl in M. destruct M as [T _].
  split; [ exact T | ]. rewrite St. vm_compute. reflexivity.
Defined.

(** ** The reports *)

(** X14: the audit report. Without a record nothing happens. With a record
    the generator is called with the record and the transaction hash of the
    state; on success the report is offered for download as
    [AUDIT_REPORT_<file name>.pdf] through a fresh object URL of type
    [application/pdf]; on failure nothing is downloaded and the error is on
    display. Only the log and, on failure, the error on display change in
    the state: the step, the record, the transaction hash and the certified
    URL are as before. *)
Theorem downloadAuditReport_outcome (svc : Services) (w : World) :
  exists w',
    downloadAuditReport svc w = (Normal tt, w') /\
    match fileData (sess w) with
    | None => w' = w
    | Some d =>
        match generateAuditReport svc d (txHash (sess w)) with
        | Normal bytes =>
            exists url,
              resolve_url url (blobs w')
              = Some {| blob_parts := bytes; blob_type := pdf_mime |} /\
              calls w'
              = ClickDownloadLink url ("AUDIT_REPORT_" ++ fileName d ++ ".pdf")
                  :: CreateObjectURL {| blob_parts := bytes; blob_type := pdf_mime |}
                  :: GenerateReport AuditReport d :: calls w /\
              errorDetails (sess w') = errorDetails (sess w)
        | Throw e =>
            blobs w' = blobs w /\
            calls w' = GenerateReport AuditReport d :: calls w /\
            errorDetails (sess w') = Some (error_details svc e)
        end
    end /\
    step (sess w') = step (sess w) /\
    fileData (sess w') = fileData (sess w) /\
    txHash (sess w') = txHash (sess w) /\
    certifiedPdfUrl (sess w') = certifiedPdfUrl (sess w).
Proof.
  destruct w as [ [ st fd wl ws lg tx cu bio sm sq src rt ed dm ] h n b c ].
  destruct (downloadAuditReport _ _) as [r w'] eqn:E.
  unfold downloadAuditReport, render in E. unfold bind at 1 in E.
  cbv beta iota delta [sess fileData txHash] in E.
  destruct fd as [ d | ].
  - cbv beta iota delta [sess fileData txHash].
    destruct (generateAuditReport svc d tx) as [ bytes | e ];
      unfold download in E; evaluate in E; injection E as <- <-;
      (eexists; split; [ reflexivity | ]); (split; [ | repeat split ]).
    + eexists. split; [ apply resolve_url_head | ]. split; reflexivity.
    + repeat split.
  - evaluate in E. injection E as <- <-.
    eexists. split; [ reflexivity | ]. repeat split.
Qed.

(** X15: the specialized reports. The report modal is closed whatever
    happens. Without a record nothing else happens. With a record the
    generator is the one of the report type of the state, called with the
    record, the caller's data and the wallet address, or the zero address
    when the wallet has none; on success the report is offered for download
    as [<TYPE>_REPORT_<file name>.pdf]; on failure nothing is downloaded and
    the error is on display. *)
Theorem handleGenerateSpecializedReport_outcome
    (svc : Services) (reportData : TradingReportData) (w : World) :
  exists w',
    handleGenerateSpecializedReport svc reportData w = (Normal tt, w') /\
    showReportConfig (sess w') = false /\
    match fileData (sess w) with
    | None => sess w' = with_showReportConfig false (sess w) /\ calls w' = calls w
    | Some d =>
        match specialized_report svc (reportType (sess w)) d
                (report_address (sess w)) reportData with
        | Normal bytes =>
            exists url,
              resolve_url url (blobs w')
              = Some {| blob_parts := bytes; blob_type := pdf_mime |} /\
              calls w'
              = ClickDownloadLink url
                  (reportType_name (reportType (sess w)) ++ "_REPORT_"
                     ++ fileName d ++ ".pdf")
                  :: CreateObjectURL {| blob_parts := bytes; blob_type := pdf_mime |}
                  :: GenerateReport (report_kind (reportType (sess w))) d :: calls w
        | Throw e =>
            blobs w' = blobs w /\
            calls w' = GenerateReport (report_kind (reportType (sess w))) d :: calls w /\
            errorDetails (sess w') = Some (error_details svc e)
        end
    end /\
    step (sess w') = step (sess w) /\
    fileData (sess w') = fileData (sess w).
Proof.
  destruct w as [ [ st fd wl ws lg tx cu bio sm sq src rt ed dm ] h n b c ].
  destruct (handleGenerateSpecializedReport _ _ _) as [r w'] eqn:E.
  unfold handleGenerateSpecializedReport, render in E. unfold bind at 1 in E.
  cbv beta iota zeta delta [sess fileData reportType wallet] in E.
  unfold specialized_report, report_address.
  cbv beta iota delta [sess fileData reportType wallet].
  destruct fd as [ d | ].
  - destruct rt.
    + destruct (generateJudicialReport svc d (Js.or_else (address wl) _) reportData)
        as [ bytes | e ];
        unfold download in E; evaluate in E; injection E as <- <-;
        (eexists; split; [ reflexivity | ]); (split; [ reflexivity | ]);
        (split; [ | repeat split ]).
      * eexists. split; [ apply resolve_url_head | reflexivity ].
      * repeat split.
    + destruct (generateSettlementReport svc d (Js.or_else (address wl) _) reportData)
        as [ bytes | e ];
        unfold download in E; evaluate in E; injection E as <- <-;
        (eexists; split; [ reflexivity | ]); (split; [ reflexivity | ]);
        (split; [ | repeat split ]).
      * eexists. split; [ apply resolve_url_head | reflexivity ].
      * repeat split.
  - evaluate in E. injection E as <- <-.
    eexists. split; [ reflexivity | ]. repeat split.
Qed.

(** ** The stages of the workflow *)

Lemma stage_frame (svc : Services) (e : Event) :
  writes_stage e = false -> keeps (preserves stage_of) (handler svc e).
Proof.
  intros W.
  destruct e as [ | | | [ file | ] | | | | | | t | | | | | | reportData ];
    try discriminate W; frame.
Qed.

Lemma handleMinting_sealed_stage (svc : Services) :
  keeps (preserves sealed_stage_of) (handleMinting svc).
Proof. frame. Qed.

Lemma enabled_mint_certified (s : Session) :
  enabled MintClicked s = true -> step s = CERTIFIED.
Proof.
  unfold enabled, mint_button_rendered, mint_button_disabled.
  destruct (step s); simpl; intros H; try reflexivity;
    rewrite ?andb_false_r in H; discriminate H.
Qed.

(** A file dropped on an idle component at rest leaves it at rest. *)
Lemma processFile_at_rest (svc : Services) (f : File.t) (w : World) :
  step (sess w) = IDLE -> at_rest (sess w) ->
  at_rest (sess (snd (processFile svc (Some f) w))).
Proof.
  intros S R.
  destruct w as [ [ st fd wl ws lg tx cu bio sm sq src rt ed dm ] h n b c ].
  simpl in S. subst st. unfold at_rest in R. simpl in R.
  destruct R as (-> & -> & ->).
  destruct (processFile _ _ _) as [r w'] eqn:E.
  unfold processFile in E. unfold bind at 1 in E.
  cbv beta iota delta [setErrorDetails update snd sess] in E.
  destruct (File.size f >? MAX_SIZE_BYTES).
  - evaluate in E. injection E as <- <-. repeat split.
  - unfold all_with_timer in E.
    destruct (calculateHashes svc f) as [ hr | e ].
    + evaluate in E.
      destruct (extractMetadata (PDFDocument_load svc) f (arrayBuffer hr))
        as [ m | e ]; evaluate in E; injection E as <- <-; repeat split.
    + evaluate in E. injection E as <- <-. repeat split.
Qed.

(** Sealing a component at rest in Review leaves it at rest. *)
Lemma handleCertification_at_rest (svc : Services) (w : World) :
  step (sess w) = REVIEW -> at_rest (sess w) ->
  at_rest (sess (snd (handleCertification svc w))).
Proof.
  intros S R.
  destruct w as [ [ st fd wl ws lg tx cu bio sm sq src rt ed dm ] h n b c ].
  simpl in S. subst st. unfold at_rest in R. simpl in R.
  destruct R as (F & -> & ->).
  destruct fd as [ d | ]; [ clear F | discriminate F ].
  destruct (handleCertification _ _) as [r w'] eqn:E.
  unfold handleCertification, render in E. unfold bind at 1 in E.
  cbv beta iota delta [sess fileData wallet] in E.
  unfold sealBytes in E.
  destruct (String.eqb (fileType d) pdf_mime).
  - destruct (stampPdf svc d (address wl)) as [ bytes | e ];
      evaluate in E; injection E as <- <-; repeat split.
  - evaluate in E. injection E as <- <-. repeat split.
Qed.

(** Reset leaves the component idle and at rest. *)
Lemma reset_at_rest (w : World) :
  step (sess (snd (reset w))) = IDLE /\ at_rest (sess (snd (reset w))) /\
  blobs (snd (reset w)) = blobs w /\ certifiedPdfUrl (sess (snd (reset w))) = None.
Proof.
  destruct w as [ [ st fd wl ws lg tx cu bio sm sq src rt ed dm ] h n b c ].
  destruct (reset _) as [r w'] eqn:E.
  unfold reset in E. evaluate in E. injection E as <- <-.
  repeat split.
Qed.

Lemma ui_at_rest (w : World) : ui_reachable w -> at_rest (sess w).
Proof.
  induction 1 as [ t0 | w ms Hr IH Hms | w svc e Hr IH ].
  - repeat split.
  - exact IH.
  - unfold dispatch. destruct (enabled e (sess w)) eqn:En; [ | exact IH ].
    destruct (writes_stage e) eqn:L.
    + destruct e as [ | | | [ f | ] | | | | | | t | | | | | | reportData ];
        try discriminate L.
      * apply processFile_at_rest; [ | exact IH ].
        now apply enabled_drop_in_idle in En.
      * apply handleCertification_at_rest; [ | exact IH ].
        now apply enabled_seal_in_review.
      * apply enabled_mint_certified in En.
        pose proof (@handleMinting_sealed_stage svc w) as K.
        unfold preserves, sealed_stage_of in K. inversion K as [ [S F C] ].
        unfold at_rest in *. simpl handler. rewrite S, F, C.
        rewrite En in *. exact IH.
      * exact (proj1 (proj2 (reset_at_rest w))).
    + pose proof (@stage_frame svc e L w) as K.
      unfold preserves, stage_of in K. inversion K as [ [S F C T] ].
      unfold at_rest in *. rewrite S, F, C, T. exact IH.
Qed.

(** X16: between two events of the rendered controls, the component is in
    Idle, Review or Certified, never left in Analyzing or Processing, and
    its data fit the step: idle, it has no record, no certified URL and no
    transaction hash; in Review, a record, no certified URL and no
    transaction hash; certified, a record and a certified URL. *)
Theorem ui_states_at_rest (w : World) :
  ui_reachable w ->
  (step (sess w) = IDLE /\ fileData (sess w) = None /\
   certifiedPdfUrl (sess w) = None /\ txHash (sess w) = None) \/
  (step (sess w) = REVIEW /\ (exists d, fileData (sess w) = Some d) /\
   certifiedPdfUrl (sess w) = None /\ txHash (sess w) = None) \/
  (step (sess w) = CERTIFIED /\ (exists d, fileData (sess w) = Some d) /\
   exists url, certifiedPdfUrl (sess w) = Some url /\ url <> EmptyString).
Proof.
  intros U. apply ui_at_rest in U. unfold at_rest in U.
  destruct (step (sess w)); try contradiction.
  - left. tauto.
  - right. left. destruct U as (F & C & T).
    destruct (fileData (sess w)) as [ d | ]; [ | discriminate F ]. eauto.
  - right. right. destruct U as (F & C).
    destruct (fileData (sess w)) as [ d | ]; [ | discriminate F ].
    destruct (certifiedPdfUrl (sess w)) as [ [ | a u ] | ]; try discriminate C.
    split; [ reflexivity | ]. split; [ eauto | ].
    eexists. split; [ reflexivity | discriminate ].
Qed.

Lemma dispatch_enabled (svc : Services) (e : Event) (w : World) :
  enabled e (sess w) = true -> dispatch svc e w = handler svc e w.
Proof. unfold dispatch. now intros ->. Qed.

Lemma ui_handler (svc : Services) (e : Event) (w : World) :
  ui_reachable w -> enabled e (sess w) = true ->
  ui_reachable (snd (handler svc e w)).
Proof.
  intros U En. rewrite <- (dispatch_enabled svc e w En). now apply ui_event.
Qed.

Lemma reviewed_world_ui_reachable : ui_reachable reviewed_world.
Proof. apply ui_handler; [ apply ui_initial | reflexivity ]. Qed.

Lemma certified_world_ui_reachable : ui_reachable certified_world.
Proof.
  apply ui_handler; [ apply reviewed_world_ui_reachable | ].
  vm_compute. reflexivity.
Qed.

Lemma ui_states_at_rest_witness :
  ui_reachable certified_world /\
  step (sess certified_world) = CERTIFIED /\
  exists url, certifiedPdfUrl (sess certified_world) = Some url /\ url <> EmptyString.
Proof.
  split; [ exact certified_world_ui_reachable | ].
  destruct (ui_states_at_rest certified_world_ui_reachable)
    as [ (S & _) | [ (S & _) | (S & _ & U) ] ].
  - exfalso. revert S. vm_compute. discriminate.
  - exfalso. revert S. vm_compute. discriminate.
  - split; assumption.
Defined.

(** X17: the way back to Idle. As long as no transaction hash is set, no
    control of a component that has left Idle brings it back to Idle: the
    drop zone is not rendered, and the reset button is part of the audit
    stage, which is rendered only once the evidence is anchored. *)
Theorem no_reset_before_anchor (svc : Services) (e : Event) (w : World) :
  step (sess w) <> IDLE ->
  Js.truthy (txHash (sess w)) = false ->
  step (sess (snd (dispatch svc e w))) <> IDLE.
Proof.
  intros S T. unfold dispatch.
  destruct (enabled e (sess w)) eqn:En; [ | exact S ].
  destruct (leaves_stage e) eqn:L.
  - destruct (@frame_handler svc e L w) as [St _]. now rewrite St.
  - destruct e as [ | | | [ f | ] | | | | | | t | | | | | | reportData ];
      try discriminate L.
    + apply enabled_drop_in_idle in En. contradiction.
    + apply handleCertification_not_idle. now apply enabled_seal_in_review.
    + unfold enabled, audit_stage_rendered in En. rewrite T in En.
      now rewrite andb_false_r in En.
Qed.

Lemma no_reset_before_anchor_witness :
  step (sess certified_world) <> IDLE /\
  Js.truthy (txHash (sess certified_world)) = false /\
  step (sess (snd (dispatch sample_services ResetClicked certified_world))) <> IDLE.
Proof.
  assert (S : step (sess certified_world) <> IDLE) by (vm_compute; discriminate).
  assert (T : Js.truthy (txHash (sess certified_world)) = false)
    by (vm_compute; reflexivity).
  split; [ exact S | ]. split; [ exact T | ].
  exact (@no_reset_before_anchor sample_services ResetClicked certified_world S T).
Defined.


Lemma anchored_world_ui_reachable : ui_reachable anchored_world.
Proof.
  apply ui_handler; [ apply ui_handler | ].
  - apply certified_world_ui_reachable.
  - reflexivity.
  - vm_compute. reflexivity.
Qed.


(** ** Reset and the report modal *)

Lemma report_open_world_ui_reachable : ui_reachable report_open_world.
Proof.
  apply ui_handler.
  - apply anchored_world_ui_reachable.
  - vm_compute. reflexivity.
Qed.

(** C10: reset does not close the report-configuration modal. It writes
    [showMetadata] and [showQRModal] and never [showReportConfig]: the flag is
    after reset what it was before. The rendered controls lead to a state
    with that modal open in which reset is offered, and from there reset
    gives a state the controls can produce in which the step is [IDLE], the
    record is cleared, the two other modals are closed, and the
    report-configuration modal is still open. *)
Theorem reset_leaves_report_modal_open :
  (forall w, showReportConfig (sess (snd (reset w))) = showReportConfig (sess w)) /\
  ui_reachable report_open_world /\
  enabled ResetClicked (sess report_open_world) = true /\
  showReportConfig (sess report_open_world) = true /\
  ui_reachable (snd (dispatch connected_services ResetClicked report_open_world)) /\
  step (sess (snd (dispatch connected_services ResetClicked report_open_world))) = IDLE /\
  fileData (sess (snd (dispatch connected_services ResetClicked report_open_world)))
  = None /\
  showMetadata (sess (snd (dispatch connected_services ResetClicked report_open_world)))
  = false /\
  showQRModal (sess (snd (dispatch connected_services ResetClicked report_open_world)))
  = false /\
  showReportConfig (sess (snd (dispatch connected_services ResetClicked report_open_world)))
  = true.
Proof.
  split; [ intros w; exact (proj1 (reset_leaves_other_flags w)) | ].
  split; [ exact report_open_world_ui_reachable | ].
  split; [ vm_compute; reflexivity | ].
  split; [ vm_compute; reflexivity | ].
  split; [ apply ui_event; exact report_open_world_ui_reachable | ].
  repeat split; vm_compute; reflexivity.
Qed.

(** ** The theme and the wallet, in every reachable state *)

Lemma theme_frame (svc : Services) (e : Event) :
  keeps (fun w w' => isDarkMode (sess w) = true -> isDarkMode (sess w') = true)
    (handler svc e).
Proof.
  assert (T : forall w, isDarkMode (sess (snd (toggleTheme w))) = true).
  { intros [ [ st fd wl ws lg tx cu bio sm sq src rt ed dm ] h n b c ]. reflexivity. }
  destruct e as [ | | | [ file | ] | | | | | | t | | | | | | reportData ];
    lazymatch goal with
    | |- keeps _ (handler _ ThemeToggled) => intros w _; exact (T w)
    | |- keeps _ ?m =>
        assert (K : keeps (preserves isDarkMode) m) by frame;
        intros w D; rewrite <- D; exact (K w)
    end.
Qed.

(** X19: the dark theme is forced: in every world the handlers can
    produce, whatever is clicked, [isDarkMode] is true; the theme toggle sets
    it to true again. *)
Theorem theme_is_always_dark (w : World) :
  reachable w -> isDarkMode (sess w) = true.
Proof.
  induction 1 as [ t0 | w ms Hr IH Hms | w svc e Hr IH ].
  - reflexivity.
  - exact IH.
  - exact (@theme_frame svc e w IH).
Qed.

Lemma theme_is_always_dark_witness :
  reachable (snd (handler sample_services ThemeToggled certified_world)) /\
  isDarkMode (sess (snd (handler sample_services ThemeToggled certified_world))) = true.
Proof.
  assert (R : reachable (snd (handler sample_services ThemeToggled certified_world)))
    by (apply reachable_handler, certified_world_reachable).
  split; [ exact R | exact (theme_is_always_dark R) ].
Defined.

Lemma handleWalletConnect_consistent (svc : Services) (w : World) :
  wallet_consistent (sess (snd (handleWalletConnect svc w))).
Proof.
  destruct w as [ [ st fd wl ws lg tx cu bio sm sq src rt ed dm ] h n b c ].
  destruct (handleWalletConnect _ _) as [r w'] eqn:E.
  unfold handleWalletConnect in E.
  destruct (connectWallet svc) as [ cn | e ];
    evaluate in E; injection E as <- <-; split; reflexivity.
Qed.

Lemma handleMinting_consistent (svc : Services) (w : World) :
  wallet_consistent (sess w) -> wallet_consistent (sess (snd (handleMinting svc w))).
Proof.
  intros C.
  destruct w as [ [ st fd [ ad ic ch ] ws lg tx cu bio sm sq src rt ed dm ] h n b c ].
  unfold wallet_consistent in *. simpl in C.
  destruct (handleMinting _ _) as [r w'] eqn:E.
  unfold handleMinting, render in E. unfold bind at 1 in E.
  cbv beta iota delta [sess wallet walletSigner isConnected fileData] in E.
  destruct ic, ws as [ sg | ];
    [ destruct fd as [ d | ];
      [ destruct (mintEvidenceNFT svc (hashSHA256 d) sg) | ]
    | unfold handleWalletConnect in E; destruct (connectWallet svc)
    | unfold handleWalletConnect in E; destruct (connectWallet svc)
    | unfold handleWalletConnect in E; destruct (connectWallet svc) ];
    evaluate in E; injection E as <- <-; simpl;
    first [ exact C | split; reflexivity ].
Qed.

(** X20: in every world the handlers can produce, the wallet of the state
    is connected exactly when it has an address and exactly when a signer is
    held: the connected flag, the address and the signer are set and cleared
    together. *)
Theorem wallet_always_consistent (w : World) :
  reachable w ->
  isConnected (wallet (sess w)) = is_some (address (wallet (sess w))) /\
  isConnected (wallet (sess w)) = is_some (walletSigner (sess w)).
Proof.
  induction 1 as [ t0 | w ms Hr IH Hms | w svc e Hr IH ].
  - split; reflexivity.
  - exact IH.
  - destruct (writes_wallet e) eqn:W.
    + destruct e as [ | | | [ f | ] | | | | | | t | | | | | | reportData ];
        try discriminate W.
      * apply handleWalletConnect_consistent.
      * now apply handleMinting_consistent.
    + pose proof (@wallet_frame svc e W w) as K.
      unfold preserves, wallet_of in K. inversion K as [ [Wl Sg] ].
      now rewrite Wl, Sg.
Qed.

Lemma connected_world_reachable : reachable connected_world.
Proof. apply reachable_handler, certified_world_reachable. Qed.

Lemma wallet_always_consistent_witness :
  reachable connected_world /\
  isConnected (wallet (sess connected_world)) = true /\
  is_some (walletSigner (sess connected_world)) = true.
Proof.
  split; [ exact connected_world_reachable | ].
  destruct (wallet_always_consistent connected_world_reachable) as [_ S].
  assert (I : isConnected (wallet (sess connected_world)) = true)
    by (vm_compute; reflexivity).
  split; [ exact I | ]. now rewrite <- S.
Defined.

(** ** The report modal *)

(** X21: opening the report modal for a report type and submitting it
    generates the report of that type: after the opening the modal is shown
    with that type and the submission is possible; the submission closes
    the modal, calls for a state with a record the generator of that type
    and no other, and cannot be repeated without opening the modal again. *)
Theorem report_modal_round
    (svc : Services) (t : ReportType) (reportData : TradingReportData) (w : World) :
  exists w1 w2,
    handler svc (ReportConfigOpened t) w = (Normal tt, w1) /\
    showReportConfig (sess w1) = true /\
    reportType (sess w1) = t /\
    enabled (ReportConfigSubmitted reportData) (sess w1) = true /\
    dispatch svc (ReportConfigSubmitted reportData) w1 = (Normal tt, w2) /\
    showReportConfig (sess w2) = false /\
    enabled (ReportConfigSubmitted reportData) (sess w2) = false /\
    match fileData (sess w) with
    | Some d =>
        In (GenerateReport (report_kind t) d) (calls w2) /\
        forall k d', In (GenerateReport k d') (calls w2) ->
                     In (GenerateReport k d') (calls w) \/ (k = report_kind t /\ d' = d)
    | None => calls w2 = calls w
    end.
Proof.
  destruct w as [ [ st fd [ ad ic ch ] ws lg tx cu bio sm sq src rt ed dm ] h n b c ].
  destruct (handler svc (ReportConfigOpened t) _) as [r1 w1] eqn:E1.
  cbn [handler] in E1. unfold openReportConfig in E1. evaluate in E1.
  injection E1 as <- <-.
  match goal with
  | |- exists w1 : World, _ => eexists ?[w1]
  end.
  match goal with
  | |- exists w2, (_, ?W) = _ /\ _ =>
      instantiate (w1 := W);
      destruct (dispatch svc (ReportConfigSubmitted reportData) W) as [r2 w2] eqn:E
  end.
  rewrite dispatch_enabled in E by reflexivity. cbn [handler] in E.
  unfold handleGenerateSpecializedReport, render in E. unfold bind at 1 in E.
  evaluate in E. cbn [fileData sess].
  destruct fd as [ d | ].
  - destruct t.
    + destruct (generateJudicialReport svc d (Js.or_else ad _) reportData)
        as [ bytes | e ];
        unfold download in E; evaluate in E; injection E as <- <-;
        eexists; (split; [ reflexivity | ]);
        (split; [ reflexivity | ]); (split; [ reflexivity | ]);
        (split; [ reflexivity | ]); (split; [ reflexivity | ]);
        (split; [ reflexivity | ]); (split; [ reflexivity | ]);
        (split; [ simpl; tauto | ]);
        intros k d' I; simpl in I;
        repeat (destruct I as [ I | I ]; [ try discriminate I | ]);
        try (inversion I; subst; right; split; reflexivity); left; exact I.
    + destruct (generateSettlementReport svc d (Js.or_else ad _) reportData)
        as [ bytes | e ];
        unfold download in E; evaluate in E; injection E as <- <-;
        eexists; (split; [ reflexivity | ]);
        (split; [ reflexivity | ]); (split; [ reflexivity | ]);
        (split; [ reflexivity | ]); (split; [ reflexivity | ]);
        (split; [ reflexivity | ]); (split; [ reflexivity | ]);
        (split; [ simpl; tauto | ]);
        intros k d' I; simpl in I;
        repeat (destruct I as [ I | I ]; [ try discriminate I | ]);
        try (inversion I; subst; right; split; reflexivity); left; exact I.
  - evaluate in E. injection E as <- <-.
    eexists. repeat (split; [ reflexivity | ]). reflexivity.
Qed.

(** X22: the white paper. Without a record nothing happens. With a record
    the generator is called with the name of the file and the SHA-256 digest
    of the record; on success the paper is offered for download as
    [WHITE_PAPER_ARCH_<file name>.pdf]; on failure nothing is downloaded and
    the error is on display. The step, the record and the transaction hash
    are as before. *)
Theorem downloadWhitePaper_outcome (svc : Services) (w : World) :
  exists w',
    downloadWhitePaper svc w = (Normal tt, w') /\
    match fileData (sess w) with
    | None => w' = w
    | Some d =>
        match generateWhitePaper svc (fileName d) (hashSHA256 d) with
        | Normal bytes =>
            exists url,
              resolve_url url (blobs w')
              = Some {| blob_parts := bytes; blob_type := pdf_mime |} /\
              calls w'
              = ClickDownloadLink url ("WHITE_PAPER_ARCH_" ++ fileName d ++ ".pdf")
                  :: CreateObjectURL {| blob_parts := bytes; blob_type := pdf_mime |}
                  :: GenerateReport WhitePaper d :: calls w
        | Throw e =>
            blobs w' = blobs w /\
            calls w' = GenerateReport WhitePaper d :: calls w /\
            errorDetails (sess w') = Some (error_details svc e)
        end
    end /\
    step (sess w') = step (sess w) /\
    fileData (sess w') = fileData (sess w) /\
    txHash (sess w') = txHash (sess w).
Proof.
  destruct w as [ [ st fd wl ws lg tx cu bio sm sq src rt ed dm ] h n b c ].
  destruct (downloadWhitePaper _ _) as [r w'] eqn:E.
  unfold downloadWhitePaper, render in E. unfold bind at 1 in E.
  cbv beta iota delta [sess fileData] in E.
  destruct fd as [ d | ].
  - cbv beta iota delta [sess fileData].
    destruct (generateWhitePaper svc (fileName d) (hashSHA256 d)) as [ bytes | e ];
      unfold download in E; evaluate in E; injection E as <- <-;
      (eexists; split; [ reflexivity | ]); (split; [ | repeat split ]).
    + eexists. split; [ apply resolve_url_head | reflexivity ].
    + repeat split.
  - evaluate in E. injection E as <- <-.
    eexists. split; [ reflexivity | ]. repeat split.
Qed.

(** ** Object URLs are never revoked *)

Lemma urls_kept_refl (w : World) : urls_kept w w.
Proof. now exists []. Qed.

Lemma urls_kept_trans (a b c : World) : urls_kept a b -> urls_kept b c -> urls_kept a c.
Proof.
  intros [x X] [y Y]. exists (y ++ x)%list. now rewrite Y, X, app_assoc.
Qed.

Lemma urls_kept_same (w w' : World) : blobs w' = blobs w -> urls_kept w w'.
Proof. intros E. now exists []. Qed.

Ltac urls_step :=
  lazymatch goal with
  | |- keeps _ (bind _ _) => apply (keeps_bind urls_kept_trans); [ | intro ]
  | |- keeps _ (try_catch _ _) => apply (keeps_try urls_kept_trans); [ | intro ]
  | |- keeps _ (createObjectURL ?b) =>
      intros ?w; exists [(object_url (List.length (blobs w)), b)]; reflexivity
  | |- keeps _ (match ?x with _ => _ end) => destruct x
  | |- keeps _ _ => intros ?w; apply urls_kept_same; reflexivity
  end.

Lemma urls_kept_handler (svc : Services) (e : Event) :
  keeps urls_kept (handler svc e).
Proof.
  destruct e as [ | | | [ file | ] | | | | | | t | | | | | | reportData ];
    unfold handler, processFile, handleCertification, handleMinting,
      handleWalletConnect, downloadAuditReport, downloadWhitePaper,
      openReportConfig, handleGenerateSpecializedReport, reset, toggleTheme,
      sealBytes, download, handleError, addLog, all_with_timer,
      setStep, setFileData, setWallet, setWalletSigner, setLogs, setTxHash,
      setCertifiedPdfUrl, setIsBiometricScanning, setShowMetadata, setShowQRModal,
      setShowReportConfig, setReportType, setErrorDetails, setIsDarkMode;
    cbv zeta; repeat urls_step.
Qed.

(** X23: no handler revokes an object URL: after any handler the object
    URLs handed out before are all still there, in place, with the new ones
    in front; reset in particular, which forgets the certified URL, hands
    out none and leaves the blob of the certified artifact where it was. *)
Theorem object_urls_are_never_revoked (svc : Services) (e : Event) (w : World) :
  (exists added, blobs (snd (handler svc e w)) = (added ++ blobs w)%list) /\
  blobs (snd (reset w)) = blobs w /\
  certifiedPdfUrl (sess (snd (reset w))) = None.
Proof.
  split; [ apply urls_kept_handler | ].
  destruct (reset_at_rest w) as (_ & _ & B & C). split; assumption.
Qed.
